(** * AntiGravity summarizer: the popup's Gemini client and the page extractor

    A shallow embedding of [popup.js] (the summarize handler, the model
    fallback of [callGeminiAPI], [checkModels], [tryGenerateContent]) and of
    the content script's [getVisibleText], with the properties of the
    specification proved about them.

    Conventions of the model.
    - A JavaScript string is a [string]; one character of the model stands for
      one UTF-16 code unit (the model keeps the code units below 256).  Every
      string operation of the program ([slice], [includes], [replace], [trim],
      the [\s+] replacement, concatenation) works code unit by code unit.
    - [await] is sequencing: the program never has two calls in flight, so an
      [async] function is a function on an explicit state that can throw.
    - The network, the browser's tab API and the engine's coercions of
      non-string values are inputs of the model (the record [Env]). *)

From Stdlib Require Import String Ascii List NArith QArith Bool Lia.
Import ListNotations.
Local Open Scope list_scope.
Local Open Scope string_scope.
Set Warnings "-register-all".

(* ================================================================== *)
(** ** JavaScript strings *)

Module JsString.

(** [s.length] *)
Fixpoint strlen (s : string) : N :=
  match s with
  | EmptyString => 0%N
  | String _ r => N.succ (strlen r)
  end.

(** [s.startsWith(p)], the test behind [includes] and [replace]. *)
Fixpoint startsWith (s p : string) {struct p} : bool :=
  match p, s with
  | EmptyString, _ => true
  | String _ _, EmptyString => false
  | String a p', String b s' => Ascii.eqb a b && startsWith s' p'
  end.

(** [s.includes(p)]: [p] occurs in [s] at some position (case-sensitive). *)
Fixpoint includes (s p : string) : bool :=
  if startsWith s p then true
  else match s with
       | EmptyString => false
       | String _ r => includes r p
       end.

(** The rest of [s] after its first [n] code units. *)
Fixpoint skipn (n : nat) (s : string) : string :=
  match n, s with
  | O, _ => s
  | S _, EmptyString => EmptyString
  | S k, String _ r => skipn k r
  end.

(** [s.replace(p, rep)] for a string pattern [p] and a replacement without
    [$]: only the first (leftmost) occurrence of [p] is replaced. *)
Fixpoint replace (s p rep : string) : string :=
  if startsWith s p then rep ++ skipn (String.length p) s
  else match s with
       | EmptyString => EmptyString
       | String c r => String c (replace r p rep)
       end.

(** [s.slice(0, n)] for [n >= 0]: the first [n] code units of [s], all of
    [s] when it is shorter. *)
Fixpoint slice0 (n : N) (s : string) : string :=
  match s with
  | EmptyString => EmptyString
  | String c r => if (n =? 0)%N then EmptyString else String c (slice0 (N.pred n) r)
  end.

(** The code units below 256 that the regular expression class [\s] and
    [String.prototype.trim] treat as white space: TAB, LF, VT, FF, CR, SPACE
    and NO-BREAK SPACE. *)
Definition isWhiteSpace (c : ascii) : bool :=
  let n := N_of_ascii c in
  ((9 <=? n)%N && (n <=? 13)%N) || (n =? 32)%N || (n =? 160)%N.

Section WhiteSpace.
(** The functions below do not depend on which code units are white space. *)
Variable ws : ascii -> bool.

(** [s.replace(/\s+/g, ' ')]: every maximal run of white space becomes one
    space.  [inRun] says that the code unit before [s] was white space, so
    that the run it belongs to has already produced its space. *)
Fixpoint replaceRunsFrom (inRun : bool) (s : string) : string :=
  match s with
  | EmptyString => EmptyString
  | String c r =>
      if ws c then
        if inRun then replaceRunsFrom true r
        else String " " (replaceRunsFrom true r)
      else String c (replaceRunsFrom false r)
  end.

Definition replaceRuns (s : string) : string := replaceRunsFrom false s.

(** [s.trimStart()] *)
Fixpoint trimStart (s : string) : string :=
  match s with
  | EmptyString => EmptyString
  | String c r => if ws c then trimStart r else s
  end.

(** [s.trimEnd()] *)
Fixpoint trimEnd (s : string) : string :=
  match s with
  | EmptyString => EmptyString
  | String c r =>
      match trimEnd r with
      | EmptyString => if ws c then EmptyString else String c EmptyString
      | t => String c t
      end
  end.

(** [s.trim()] *)
Definition trim (s : string) : string := trimEnd (trimStart s).

(** Two adjacent white-space code units somewhere in [s]. *)
Fixpoint hasRun (s : string) : bool :=
  match s with
  | EmptyString => false
  | String c r =>
      match r with
      | EmptyString => false
      | String d _ => (ws c && ws d) || hasRun r
      end
  end.

Definition startsWithSpace (s : string) : bool :=
  match s with
  | EmptyString => false
  | String c _ => ws c
  end.

Fixpoint endsWithSpace (s : string) : bool :=
  match s with
  | EmptyString => false
  | String c EmptyString => ws c
  | String _ r => endsWithSpace r
  end.

(** Every white-space code unit of [s] is the space character. *)
Fixpoint onlyPlainSpaces (s : string) : bool :=
  match s with
  | EmptyString => true
  | String c r => (negb (ws c) || Ascii.eqb c " ") && onlyPlainSpaces r
  end.
End WhiteSpace.

End JsString.

(* ================================================================== *)
(** ** The content script: [getVisibleText] *)

Module Extractor.
Import JsString.

(** The part of a DOM tree the extractor looks at.  An element carries its
    lower-case local name, its class list and its [role] attribute.  The
    selectors below compare as in a no-quirks document; [Quirks] has the
    extractor for both modes of a document. *)
Inductive Node : Type :=
| Text (data : string)
| Comment (data : string)
| Element (tag : string) (classes : list string) (role : option string)
          (children : list Node).

(** The three shapes of selector in [noiseSelectors]. *)
Inductive Selector : Type :=
| SelTag (name : string)
| SelClass (name : string)
| SelRole (value : string).

Definition noiseSelectors : list Selector :=
  [ SelTag "script"; SelTag "style"; SelTag "noscript"; SelTag "iframe"; SelTag "svg";
    SelTag "nav"; SelTag "footer"; SelTag "header"; SelTag "aside";
    SelClass "ad"; SelClass "ads";
    SelRole "alert"; SelRole "banner"; SelRole "navigation" ].

(** [el.matches(selector)] *)
Definition matches (sel : Selector) (n : Node) : bool :=
  match n with
  | Element tag classes role _ =>
      match sel with
      | SelTag name => String.eqb tag name
      | SelClass name => existsb (String.eqb name) classes
      | SelRole value =>
          match role with
          | Some r => String.eqb r value
          | None => false
          end
      end
  | _ => false
  end.

(** [root.querySelectorAll(sel).forEach(el => el.remove())]: every descendant
    of [root] that matches leaves the tree, with its subtree; [root] itself is
    never among the matches. *)
Fixpoint removeAll (sel : Selector) (root : Node) : Node :=
  match root with
  | Element tag classes role children =>
      Element tag classes role
        ((fix go (l : list Node) : list Node :=
            match l with
            | [] => []
            | child :: rest =>
                if matches sel child then go rest
                else removeAll sel child :: go rest
            end) children)
  | _ => root
  end.

(** [node.textContent]: the data of the text nodes below, in tree order. *)
Fixpoint textContent (n : Node) : string :=
  match n with
  | Text data => data
  | Comment _ => EmptyString
  | Element _ _ _ children =>
      (fix cat (l : list Node) : string :=
         match l with
         | [] => EmptyString
         | child :: rest => textContent child ++ cat rest
         end) children
  end.

(** [clone.innerText].  The clone is never inserted into a document, so it is
    not rendered, and the HTML standard gives [innerText] of an element that
    is not rendered as its [textContent]. *)
Definition innerText (clone : Node) : string := textContent clone.

(** [text.replace(/\s+/g, ' ').trim()] *)
Definition cleanWhitespace (text : string) : string :=
  trim isWhiteSpace (replaceRuns isWhiteSpace text).

(** [getVisibleText()] on a document whose body is [body]. *)
Definition getVisibleText (body : Node) : string :=
  let clone := body in
  let clone := fold_left (fun c sel => removeAll sel c) noiseSelectors clone in
  let text := innerText clone in
  cleanWhitespace text.

End Extractor.

(* ================================================================== *)
(** ** The fragment of JavaScript the popup relies on *)

Module Js.
Import JsString.

(** A thrown [Error] object: the constructor it was built with and its
    [message]. *)
Inductive ErrorName : Type :=
| Error
| TypeError
| SyntaxError
| OtherError (name : string).

Record Exn : Type := mkExn { name : ErrorName; message : string }.

(** The completion of an expression or a call: a value, or an exception. *)
Inductive Outcome (A : Type) : Type :=
| Return (a : A)
| Throw (e : Exn).
Arguments Return {A} a.
Arguments Throw {A} e.

Definition bindO {A B : Type} (m : Outcome A) (k : A -> Outcome B) : Outcome B :=
  match m with
  | Return a => k a
  | Throw e => Throw e
  end.

Notation "'let?' x := m 'in' k" := (bindO m (fun x => k))
  (at level 10, x name, m at level 100, k at level 200).

(** A value that [JSON.parse] returns.  A number is its rational value; the
    fields of an object are in source order with distinct keys. *)
Inductive JSON : Type :=
| JNull
| JBool (b : bool)
| JNum (q : Q)
| JStr (s : string)
| JArr (items : list JSON)
| JObj (fields : list (string * JSON)).

(** A JavaScript value of the program: [None] is [undefined]. *)
Definition Val : Type := option JSON.

(** ToBoolean *)
Definition truthy (v : Val) : bool :=
  match v with
  | None => false
  | Some JNull => false
  | Some (JBool b) => b
  | Some (JNum q) => negb (Qeq_bool q 0)
  | Some (JStr s) => negb (String.eqb s "")
  | Some (JArr _) => true
  | Some (JObj _) => true
  end.

(** [v === undefined || v === null], the test of [?.] *)
Definition nullish (v : Val) : bool :=
  match v with
  | None => true
  | Some JNull => true
  | Some _ => false
  end.

Fixpoint field (k : string) (fields : list (string * JSON)) : Val :=
  match fields with
  | [] => None
  | (k', v) :: rest => if String.eqb k k' then Some v else field k rest
  end.

(** V8's message for a property read on [undefined] or [null]. *)
Definition cannotRead (what k : string) : Exn :=
  mkExn TypeError ("Cannot read properties of " ++ what ++ " (reading '" ++ k ++ "')").

(** V8's message for a call of something that is not a function. *)
Definition notAFunction (expr : string) : Exn :=
  mkExn TypeError (expr ++ " is not a function").

Definition lengthOf (n : nat) : JSON := JNum (inject_Z (Z.of_nat n)).

(** [v.k] for the data properties the program reads ([error], [message],
    [candidates], [content], [parts], [text], [models], [name],
    [supportedGenerationMethods], [length]): an own field of an object, the
    length of an array or a string, [undefined] otherwise; a read on
    [undefined] or [null] throws. *)
Definition get (v : Val) (k : string) : Outcome Val :=
  match v with
  | None => Throw (cannotRead "undefined" k)
  | Some JNull => Throw (cannotRead "null" k)
  | Some (JObj fields) => Return (field k fields)
  | Some (JArr items) =>
      Return (if String.eqb k "length" then Some (lengthOf (List.length items)) else None)
  | Some (JStr s) =>
      Return (if String.eqb k "length" then Some (lengthOf (String.length s)) else None)
  | Some _ => Return None
  end.

(** [v?.k] *)
Definition getOpt (v : Val) (k : string) : Outcome Val :=
  if nullish v then Return None else get v k.

(** [v[0]] *)
Definition index0 (v : Val) : Outcome Val :=
  match v with
  | None => Throw (cannotRead "undefined" "0")
  | Some JNull => Throw (cannotRead "null" "0")
  | Some (JArr items) => Return (hd_error items)
  | Some (JStr s) =>
      Return (match s with
              | EmptyString => None
              | String c _ => Some (JStr (String c EmptyString))
              end)
  | Some (JObj fields) => Return (field "0" fields)
  | Some _ => Return None
  end.

(** [a || b] *)
Definition orElse (a b : Val) : Val := if truthy a then a else b.

(** [s || d] on strings *)
Definition orElseString (s d : string) : string :=
  if String.eqb s "" then d else s.

(** An element of an array that is the string [x] (the comparison of
    [Array.prototype.includes] against a string). *)
Definition isString (x : string) (v : JSON) : bool :=
  match v with
  | JStr s => String.eqb s x
  | _ => false
  end.

(** [v.includes(x)] for a string [x]; [what] is the source text of [v]. *)
Definition callIncludes (what : string) (v : Val) (x : string) : Outcome bool :=
  match v with
  | None => Throw (cannotRead "undefined" "includes")
  | Some JNull => Throw (cannotRead "null" "includes")
  | Some (JArr items) => Return (existsb (isString x) items)
  | Some (JStr s) => Return (includes s x)
  | Some _ => Throw (notAFunction (what ++ ".includes"))
  end.

(** [v.replace(p, rep)] for strings [p] and [rep]. *)
Definition callReplace (what : string) (v : Val) (p rep : string) : Outcome string :=
  match v with
  | None => Throw (cannotRead "undefined" "replace")
  | Some JNull => Throw (cannotRead "null" "replace")
  | Some (JStr s) => Return (replace s p rep)
  | Some _ => Throw (notAFunction (what ++ ".replace"))
  end.

(** [items.filter(f)] for a callback that can throw. *)
Fixpoint filterO (f : JSON -> Outcome bool) (items : list JSON) : Outcome (list JSON) :=
  match items with
  | [] => Return []
  | x :: rest =>
      let? keep := f x in
      let? kept := filterO f rest in
      Return (if keep then x :: kept else kept)
  end.

(** [items.map(f)] for a callback that can throw. *)
Fixpoint mapO {B : Type} (f : JSON -> Outcome B) (items : list JSON) : Outcome (list B) :=
  match items with
  | [] => Return []
  | x :: rest =>
      let? y := f x in
      let? ys := mapO f rest in
      Return (y :: ys)
  end.

(** [v.filter(f)]: only an array has the method. *)
Definition callFilter (what : string) (v : Val) (f : JSON -> Outcome bool)
  : Outcome (list JSON) :=
  match v with
  | None => Throw (cannotRead "undefined" "filter")
  | Some JNull => Throw (cannotRead "null" "filter")
  | Some (JArr items) => filterO f items
  | Some _ => Throw (notAFunction (what ++ ".filter"))
  end.

(** The transport. *)
Inductive Method : Type := GET | POST.

Record Request : Type := mkRequest {
  url : string;
  method : Method;
  headers : list (string * string);
  payload : option JSON          (* the value given to JSON.stringify *)
}.

(** A response: [response.ok], and what [await response.json()] completes
    with. *)
Record Response : Type := mkResponse { ok : bool; json : Outcome JSON }.

End Js.

(* ================================================================== *)
(** ** popup.js *)

Module Popup.
Import JsString Js Extractor.

(** What the status line and the panels show. *)
Record UI : Type := mkUI {
  statusText : string;
  statusBackground : string;
  statusColor : string;
  summarizeDisabled : bool;
  loaderHidden : bool;
  settingsHidden : bool;
  mainHidden : bool
}.

Inductive StatusType : Type := error | warning | normal.

(** What the popup does to the outside besides [fetch].  [SaveStarted] is
    the call of [saveToFile]: the file text is built and handed to a
    [FileReader]; [chrome.downloads.download] is called from the reader's
    [onload], in a later task, which the model does not follow. *)
Inductive Event : Type :=
| Alert (msg : string)
| ExecuteScript (tabId : Z)
| SendMessage (tabId : Z)
| SaveStarted (pageUrl content summary : string)
| ClipboardWrite (summary : Val)
| OpenWindow (title pageUrl content summary : string).

(** The variables of the popup's closure, with the requests and the other
    effects it has issued so far (oldest first). *)
Record State : Type := mkState {
  API_KEY : string;
  validModelName : option string;
  ui : UI;
  requests : list Request;
  events : list Event
}.

(** The page the content script answers for. *)
Record Page : Type := mkPage { href : string; title : string; body : Node }.

(** The inputs of a run. *)
Record Env : Type := mkEnv {
  (** the completion of the [n]-th [fetch] of the session, for its request *)
  fetchReply : nat -> Request -> Outcome Response;
  (** ToString of a parsed value that is not a string *)
  coerceToString : JSON -> Outcome string;
  (** [v > 0] for a parsed value that is a string, an array or an object *)
  coerceGtZero : JSON -> Outcome bool;
  (** [chrome.tabs.query]: the id of the first tab of the answer, if any *)
  activeTab : Outcome (option Z);
  (** [chrome.tabs.sendMessage(.., GET_CONTENT)]: the page that answers *)
  pageReply : Outcome (option Page);
  saveFileChecked : bool;
  copyClipboardChecked : bool;
  (** an exception when [navigator.clipboard.writeText] rejects *)
  clipboardReply : option Exn
}.

(** An [async] function of the popup: from the state before the call to its
    completion and the state after it. *)
Definition M (A : Type) : Type := State -> Outcome A * State.

Definition ret {A : Type} (a : A) : M A := fun st => (Return a, st).

Definition throw {A : Type} (e : Exn) : M A := fun st => (Throw e, st).

Definition bind {A B : Type} (m : M A) (k : A -> M B) : M B :=
  fun st =>
    match m st with
    | (Return a, st') => k a st'
    | (Throw e, st') => (Throw e, st')
    end.

(** [try { m } catch (e) { handler e }] *)
Definition tryCatch {A : Type} (m : M A) (handler : Exn -> M A) : M A :=
  fun st =>
    match m st with
    | (Return a, st') => (Return a, st')
    | (Throw e, st') => handler e st'
    end.

(** A synchronous expression evaluated inside an [async] function. *)
Definition lift {A : Type} (o : Outcome A) : M A := fun st => (o, st).

Definition gets {A : Type} (f : State -> A) : M A := fun st => (Return (f st), st).

Definition modify (f : State -> State) : M unit := fun st => (Return tt, f st).

Notation "x <- m ;; k" := (bind m (fun x => k))
  (at level 61, m at next level, right associativity).
Notation "m ;;; k" := (bind m (fun _ => k))
  (at level 61, right associativity).

Definition setUI (f : UI -> UI) (st : State) : State :=
  mkState (API_KEY st) (validModelName st) (f (ui st)) (requests st) (events st).

Definition setValidModelName (m : option string) (st : State) : State :=
  mkState (API_KEY st) m (ui st) (requests st) (events st).

Definition logRequest (r : Request) (st : State) : State :=
  mkState (API_KEY st) (validModelName st) (ui st) (requests st ++ [r])%list (events st).

Definition logEvent (e : Event) (st : State) : State :=
  mkState (API_KEY st) (validModelName st) (ui st) (requests st) (events st ++ [e])%list.

Definition emit (e : Event) : M unit := modify (logEvent e).

(* ---- helpers of the page ---- *)

Definition toggleSettings : M unit :=
  modify (setUI (fun u =>
    let isHidden := settingsHidden u in
    if isHidden then
      mkUI (statusText u) (statusBackground u) (statusColor u)
           (summarizeDisabled u) (loaderHidden u) false true
    else
      mkUI (statusText u) (statusBackground u) (statusColor u)
           (summarizeDisabled u) (loaderHidden u) true false)).

Definition setLoading (isLoading : bool) : M unit :=
  modify (setUI (fun u =>
    mkUI (statusText u)
         (if isLoading then "#e2e8f0" else statusBackground u)
         (if isLoading then "#1e293b" else statusColor u)
         isLoading (negb isLoading) (settingsHidden u) (mainHidden u))).

Definition setStatus (msg : string) (type : StatusType) : M unit :=
  modify (setUI (fun u =>
    let '(background, color) :=
      match type with
      | error => ("#fee2e2", "#dc2626")
      | warning => ("#fef3c7", "#d97706")
      | normal => ("#f1f5f9", "#475569")
      end in
    mkUI msg background color
         (summarizeDisabled u) (loaderHidden u) (settingsHidden u) (mainHidden u))).

Definition showSuccess (msg : string) : M unit :=
  modify (setUI (fun u =>
    mkUI msg "rgba(16, 185, 129, 0.1)" "#10b981"
         (summarizeDisabled u) (loaderHidden u) (settingsHidden u) (mainHidden u))).

Section WithEnv.
Variable env : Env.

(** [await fetch(..)]: the request leaves, and the transport answers or
    rejects. *)
Definition fetch (req : Request) : M Response :=
  fun st => (fetchReply env (List.length (requests st)) req, logRequest req st).

(** ToString *)
Definition toString (v : Val) : Outcome string :=
  match v with
  | None => Return "undefined"
  | Some JNull => Return "null"
  | Some (JBool b) => Return (if b then "true" else "false")
  | Some (JStr s) => Return s
  | Some j => coerceToString env j
  end.

(** [v > 0] *)
Definition gtZero (v : Val) : Outcome bool :=
  match v with
  | None => Return false
  | Some JNull => Return false
  | Some (JBool b) => Return b
  | Some (JNum q) => Return (negb (Qle_bool q 0))
  | Some j => coerceGtZero env j
  end.

(** [new Error(msg)] for a [msg] that is not [undefined] *)
Definition newError (msg : Val) : Outcome Exn :=
  let? text := toString msg in
  Return (mkExn Error text).

(* ---- API logic ---- *)

(** [fetch(listEndpoint)] *)
Definition listRequest (key : string) : Request :=
  let listEndpoint :=
    "https://generativelanguage.googleapis.com/v1beta/models?key=" ++ key in
  mkRequest listEndpoint GET [] None.

(** [m => m.supportedGenerationMethods &&
          m.supportedGenerationMethods.includes("generateContent")] *)
Definition capable (m : JSON) : Outcome bool :=
  let? methods := get (Some m) "supportedGenerationMethods" in
  if truthy methods then
    callIncludes "m.supportedGenerationMethods" methods "generateContent"
  else Return false.

(** [m => m.name.replace("models/", "")] *)
Definition bareName (m : JSON) : Outcome string :=
  let? name := get (Some m) "name" in
  callReplace "m.name" name "models/" "".

Definition checkModels : M (option (list string)) :=
  key <- gets API_KEY ;;
  if String.eqb key "" then
    emit (Alert "Please enter an API Key first.") ;;;
    ret None
  else
    tryCatch
      (response <- fetch (listRequest key) ;;
       data <- lift (json response) ;;
       if negb (ok response) then ret None
       else
         models <- lift (get (Some data) "models") ;;
         if truthy models then
           (* Find models that support generateContent *)
           capableModels <- lift (callFilter "data.models" models capable) ;;
           (* Return just the names *)
           names <- lift (mapO bareName capableModels) ;;
           ret (Some names)
         else ret (Some []))
      (fun e => ret None).

Definition nl : string := String (ascii_of_nat 10) EmptyString.

(** The text before [${truncatedText}] in the template literal. *)
Definition prompt : string :=
  "Please provide a **highly detailed and verbose summary** of the following web page content. " ++ nl ++
  "                    " ++ nl ++
  "                    Structure:" ++ nl ++
  "                    1. **Executive Summary**: A high-level overview." ++ nl ++
  "                    2. **Key Points**: Detailed bullet points of the main arguments/facts." ++ nl ++
  "                    3. **Analysis/Details**: deep dive into the specific content." ++ nl ++
  "                    " ++ nl ++
  "                    Format the output with Markdown." ++ nl ++
  "                    " ++ nl ++
  "                    Content: " ++ nl ++ nl.

Definition maxLength : N := 100000.

Definition generateEndpoint (modelName key : string) : string :=
  "https://generativelanguage.googleapis.com/v1beta/models/" ++ modelName ++
  ":generateContent?key=" ++ key.

(** The object given to [JSON.stringify] for the text sent. *)
Definition generatePayload (sent : string) : JSON :=
  JObj [("contents", JArr [JObj [("parts", JArr [JObj [("text", JStr sent)]])]])].

Definition generateRequest (modelName key text : string) : Request :=
  mkRequest (generateEndpoint modelName key) POST
            [("Content-Type", "application/json")]
            (Some (generatePayload (prompt ++ slice0 maxLength text))).

Definition tryGenerateContent (modelName text : string) : M Val :=
  key <- gets API_KEY ;;
  response <- fetch (generateRequest modelName key text) ;;
  data <- lift (json response) ;;
  if negb (ok response) then
    err <- lift (get (Some data) "error") ;;
    reported <- lift (getOpt err "message") ;;
    let msg := orElse reported (Some (JStr "Unknown API Error")) in
    e <- lift (newError msg) ;;
    throw e
  else
    candidates <- lift (get (Some data) "candidates") ;;
    nonEmpty <- (if truthy candidates then
                   len <- lift (get candidates "length") ;;
                   lift (gtZero len)
                 else ret false) ;;
    if nonEmpty then
      first <- lift (index0 candidates) ;;
      content <- lift (get first "content") ;;
      parts <- lift (get content "parts") ;;
      part <- lift (index0 parts) ;;
      lift (get part "text")
    else
      throw (mkExn Error "No summary returned from Gemini.").

(** Models to try in order of preference *)
Definition preferredModels : list string :=
  ["gemini-1.5-flash"; "gemini-1.5-flash-latest"; "gemini-pro"].

(** [if (validModelName) { modelsToTry = [validModelName]; }] *)
Definition modelsToTry (cached : option string) : list string :=
  match cached with
  | Some m => if String.eqb m "" then preferredModels else [m]
  | None => preferredModels
  end.

(** The test that ends the sweep: the message names neither a missing model
    nor an unsupported method. *)
Definition profound (e : Exn) : bool :=
  negb (includes (message e) "not found") &&
  negb (includes (message e) "not supported").

(** How the [for] loop over the candidates ends: by the [return] inside it,
    or by running out of candidates with [lastError]. *)
Inductive LoopExit : Type :=
| Returned (v : Val)
| Exhausted (lastError : option Exn).

Fixpoint sweep (models : list string) (text : string) (lastError : option Exn)
  : M LoopExit :=
  match models with
  | [] => ret (Exhausted lastError)
  | model :: rest =>
      fun st =>
        match tryGenerateContent model text st with
        | (Return v, st') => (Return (Returned v), st')
        | (Throw e, st') =>
            (* lastError = e *)
            if profound e then (Throw e, st')
            else sweep rest text (Some e) st'
        end
  end.

(** [lastError?.message || "Unknown"] *)
Definition lastMessage (lastError : option Exn) : string :=
  match lastError with
  | Some e => orElseString (message e) "Unknown"
  | None => "Unknown"
  end.

Definition noWorkingModel (lastError : option Exn) : Exn :=
  mkExn Error ("Could not find any working Gemini model. Last error: "
               ++ lastMessage lastError).

(** The part of [callGeminiAPI] after the loop. *)
Definition discover (text : string) (lastError : option Exn) : M Val :=
  setStatus "Finding compatible model..." warning ;;;
  availableModels <- checkModels ;;
  match availableModels with
  | Some (fallbackModel :: _) =>
      (* Try the first one we find *)
      fun st =>
        match tryGenerateContent fallbackModel text st with
        | (Return result, st') =>
            (* It worked! Remember this model. *)
            (Return result, setValidModelName (Some fallbackModel) st')
        | (Throw e, st') => throw (noWorkingModel (Some e)) st'
        end
  | _ => throw (noWorkingModel lastError)
  end.

Definition callGeminiAPI (text : string) : M Val :=
  cached <- gets validModelName ;;
  exit <- sweep (modelsToTry cached) text None ;;
  match exit with
  | Returned v => ret v
  | Exhausted lastError => discover text lastError
  end.

(* ---- helpers ---- *)

Definition saveToFile (pageUrl originalContent : string) (summary : Val) : M unit :=
  text <- lift (toString summary) ;;
  emit (SaveStarted pageUrl originalContent text).

Definition openSummaryWindow (title pageUrl originalContent : string) (summary : Val)
  : M unit :=
  match summary with
  | Some (JStr s) => emit (OpenWindow title pageUrl originalContent s)
  | None => throw (cannotRead "undefined" "replace")
  | Some JNull => throw (cannotRead "null" "replace")
  | Some _ => throw (notAFunction "summary.replace")
  end.

(* ---- handlers ---- *)

Definition handleSummarize : M unit :=
  key <- gets API_KEY ;;
  if String.eqb key "" then
    setStatus "Missing API Key. Click 'Settings' to add it." error ;;;
    toggleSettings (* Force open settings *)
  else
    setLoading true ;;;
    setStatus "Extracting content..." normal ;;;
    tryCatch
      ((* 1. Get Tab *)
       tab <- lift (activeTab env) ;;
       match tab with
       | None => throw (mkExn Error "No active tab found")
       | Some tabId =>
           (* 2. Ensure Content Script (a failure is only logged) *)
           emit (ExecuteScript tabId) ;;;
           (* 3. Get Content *)
           emit (SendMessage tabId) ;;;
           response <- lift (pageReply env) ;;
           let content :=
             match response with
             | Some page => getVisibleText (body page)
             | None => ""
             end in
           match response with
           | Some page =>
               if String.eqb content "" then
                 throw (mkExn Error "Could not extract content from page.")
               else
                 setStatus "Asking Gemini..." normal ;;;
                 (* 4. Call Gemini API *)
                 summary <- callGeminiAPI content ;;
                 (* 5. Handle Options *)
                 (if saveFileChecked env
                  then saveToFile (href page) content summary else ret tt) ;;;
                 (if copyClipboardChecked env
                  then emit (ClipboardWrite summary) ;;;
                       match clipboardReply env with
                       | Some e => throw e
                       | None => ret tt
                       end
                  else ret tt) ;;;
                 (* 6. Open Window *)
                 openSummaryWindow (title page) (href page) content summary ;;;
                 setLoading false ;;;
                 showSuccess "Done! Summary ready."
           | None => throw (mkExn Error "Could not extract content from page.")
           end
       end)
      (fun err =>
         setLoading false ;;;
         setStatus ("Error: " ++ message err) error).

End WithEnv.

End Popup.

(* ================================================================== *)
(** ** The provider's model list, as its documentation describes it *)

Module Provider.
Import JsString Js.

(** An entry of [models]: an object with a string [name] and, when present,
    a list [supportedGenerationMethods]. *)
Definition wellFormedEntry (m : JSON) : bool :=
  match m with
  | JObj fields =>
      match field "name" fields with
      | Some (JStr _) => true
      | _ => false
      end
      &&
      match field "supportedGenerationMethods" fields with
      | None => true
      | Some (JArr _) => true
      | Some _ => false
      end
  | _ => false
  end.

Definition nameOf (m : JSON) : string :=
  match m with
  | JObj fields =>
      match field "name" fields with
      | Some (JStr s) => s
      | _ => EmptyString
      end
  | _ => EmptyString
  end.

(** The entry lists "generateContent" among its generation methods. *)
Definition supportsGenerateContent (m : JSON) : bool :=
  match m with
  | JObj fields =>
      match field "supportedGenerationMethods" fields with
      | Some (JArr methods) => existsb (isString "generateContent") methods
      | _ => false
      end
  | _ => false
  end.

End Provider.

(* ================================================================== *)
(** ** Concrete runs *)

Module Scenario.
Import JsString Js Extractor Popup.

Definition readyUI : UI := mkUI "Ready to summarize" "" "" false true true false.

(** The popup right after it has loaded the key [key]. *)
Definition loaded (key : string) : State := mkState key None readyUI [] [].


(** Bodies the provider sends. *)
Definition errorBody (code : Z) (msg : string) : JSON :=
  JObj [("error", JObj [("code", JNum (inject_Z code)); ("message", JStr msg)])].

Definition notFound (model : string) : Response :=
  mkResponse false (Return (errorBody 404
    ("models/" ++ model ++ " is not found for API version v1beta"))).

Definition keyInvalid : Response :=
  mkResponse false (Return (errorBody 400
    "API key not valid. Please pass a valid API key.")).

Definition summaryOf (text : string) : Response :=
  mkResponse true (Return (JObj
    [("candidates",
      JArr [JObj [("content", JObj [("parts", JArr [JObj [("text", JStr text)]]);
                                    ("role", JStr "model")])]])])).

Definition modelEntry (name : string) (methods : list string) : JSON :=
  JObj [("name", JStr name); ("displayName", JStr name);
        ("supportedGenerationMethods", JArr (map JStr methods))].

Definition modelList (entries : list JSON) : Response :=
  mkResponse true (Return (JObj [("models", JArr entries)])).

(** A transport that answers by the path of the request: one answer per
    model for generation, one for the listing. *)
Definition server (generation : string -> Outcome Response)
                  (listing : Outcome Response) (key : string)
  : nat -> Request -> Outcome Response :=
  fun _ req =>
    if String.eqb (url req)
         ("https://generativelanguage.googleapis.com/v1beta/models?key=" ++ key)
    then listing
    else
      let fix pick (models : list string) : Outcome Response :=
        match models with
        | [] => Throw (mkExn TypeError "Failed to fetch")
        | m :: rest =>
            if String.eqb (url req) (generateEndpoint m key) then generation m
            else pick rest
        end in
      pick ["gemini-1.5-flash"; "gemini-1.5-flash-latest"; "gemini-pro";
            "gemini-2.0-flash"; "embedding-001"].

Definition article : Page :=
  mkPage "https://example.org/post" "A post"
    (Element "body" [] None
       [Element "nav" [] None [Text "Home | About"];
        Element "p" [] None [Text "  Gravity   is"; Text (nl ++ " optional. ")];
        Element "div" ["ad"] None [Text "Buy now"]]).

Definition world (reply : nat -> Request -> Outcome Response) : Env :=
  mkEnv reply
        (fun _ => Return "[object Object]") (fun _ => Return false)
        (Return (Some 7%Z)) (Return (Some article)) false false None.

(** Every static candidate is unknown to the provider. *)
Definition allMissing (m : string) : Outcome Response := Return (notFound m).

(** The provider knows [gemini-1.5-flash-latest] but not [gemini-1.5-flash]. *)
Definition secondWorks (m : string) : Outcome Response :=
  if String.eqb m "gemini-1.5-flash-latest" then Return (summaryOf "A summary.")
  else Return (notFound m).

(** Only [gemini-2.0-flash], which is not in the static list, works. *)
Definition onlyNewWorks (m : string) : Outcome Response :=
  if String.eqb m "gemini-2.0-flash" then Return (summaryOf "A summary.")
  else Return (notFound m).

Definition catalogue : Response :=
  modelList [modelEntry "models/embedding-001" ["embedContent"];
             modelEntry "models/gemini-2.0-flash" ["generateContent"; "countTokens"];
             modelEntry "models/gemini-pro" ["generateContent"]].

(** A success without candidates, and successes whose first candidate is
    incomplete. *)
Definition noCandidates : Response :=
  mkResponse true (Return (JObj [("candidates", JArr [])])).

Definition blockedCandidate : Response :=
  mkResponse true (Return (JObj
    [("candidates", JArr [JObj [("finishReason", JStr "SAFETY")]])])).

Definition answers (r : Response) (m : string) : Outcome Response := Return r.

Definition forbiddenListing : Response :=
  mkResponse false (Return (errorBody 403 "Permission denied")).

(** A text of 131072 characters. *)
Fixpoint doubled (k : nat) (s : string) : string :=
  match k with
  | O => s
  | S k' => doubled k' (s ++ s)
  end.

Definition longText : string := doubled 17 "a".

End Scenario.

(* ================================================================== *)
(** ** The noise a document carries *)

Module Noise.
Import JsString Extractor.

(** [root.querySelector(sel) !== null]: some descendant of [root] matches. *)
Fixpoint hasMatch (sel : Selector) (root : Node) : bool :=
  match root with
  | Element _ _ _ children =>
      (fix any (l : list Node) : bool :=
         match l with
         | [] => false
         | child :: rest => matches sel child || hasMatch sel child || any rest
         end) children
  | _ => false
  end.

(** The element matches one of the selectors. *)
Definition isNoise (sels : list Selector) (n : Node) : bool :=
  existsb (fun sel => matches sel n) sels.

(** One pass over the tree that drops every descendant matching any of the
    selectors: what the loop over the selectors is compared with. *)
Fixpoint removeAny (sels : list Selector) (root : Node) : Node :=
  match root with
  | Element tag classes role children =>
      Element tag classes role
        ((fix go (l : list Node) : list Node :=
            match l with
            | [] => []
            | child :: rest =>
                if isNoise sels child then go rest
                else removeAny sels child :: go rest
            end) children)
  | _ => root
  end.

(** The code units of [s] that are not white space, in order. *)
Fixpoint visible (s : string) : string :=
  match s with
  | EmptyString => EmptyString
  | String c r => if isWhiteSpace c then visible r else String c (visible r)
  end.

(** Every code unit of [s] is white space. *)
Fixpoint blank (s : string) : bool :=
  match s with
  | EmptyString => true
  | String c r => isWhiteSpace c && blank r
  end.

End Noise.

(* ================================================================== *)
(** ** popup.js: the settings panel *)

Module Settings.
Import JsString Js Popup.

(** The popup with what the settings panel adds to it: the key field, the
    save button, the value stored under [geminiApiKey] (the extension writes
    only strings there) and the callbacks [setTimeout] has scheduled, each
    with the [originalText] it captured, oldest first. *)
Record Panel : Type := mkPanel {
  popup : State;
  apiKeyInput : string;
  saveKeyText : string;
  saveKeyBackground : string;
  stored : option string;
  timers : list string
}.

(** The browser under the panel. *)
Record Browser : Type := mkBrowser {
  (** an exception when [chrome.storage.sync.get] rejects *)
  storageGet : option Exn;
  (** an exception when [chrome.storage.sync.set] rejects *)
  storageSet : option Exn;
  (** the computed value of [--success-color] *)
  successColor : string
}.

Definition setApiKey (key : string) (st : State) : State :=
  mkState key (validModelName st) (ui st) (requests st) (events st).

Definition onPopup (f : State -> State) (p : Panel) : Panel :=
  mkPanel (f (popup p)) (apiKeyInput p) (saveKeyText p) (saveKeyBackground p)
          (stored p) (timers p).

Section WithBrowser.
Variable browser : Browser.

Definition loadApiKey (p : Panel) : Outcome unit * Panel :=
  match storageGet browser with
  | Some e => (Throw e, p)
  | None =>
      match stored p with
      | Some key =>
          if String.eqb key "" then
            (Return tt,
             onPopup (fun st =>
               snd (setStatus "Please set your Gemini API Key in settings." warning st)) p)
          else
            (Return tt,
             mkPanel (setApiKey key (popup p)) key (saveKeyText p)
                     (saveKeyBackground p) (stored p) (timers p))
      | None =>
          (Return tt,
           onPopup (fun st =>
             snd (setStatus "Please set your Gemini API Key in settings." warning st)) p)
      end
  end.

Definition saveApiKey (p : Panel) : Outcome unit * Panel :=
  let key := trim isWhiteSpace (apiKeyInput p) in
  if String.eqb key "" then (Return tt, p)
  else
    match storageSet browser with
    | Some e => (Throw e, p)
    | None =>
        (* UI Feedback *)
        let originalText := saveKeyText p in
        (Return tt,
         mkPanel (setApiKey key (popup p)) (apiKeyInput p) "Saved!"
                 (successColor browser) (Some key)
                 (timers p ++ [originalText])%list)
    end.

End WithBrowser.

(** The oldest scheduled callback runs. *)
Definition timerFires (p : Panel) : Panel :=
  match timers p with
  | [] => p
  | originalText :: rest =>
      mkPanel
        (snd (setStatus "Ready to summarize" normal
                (snd (toggleSettings (popup p)))))
        (apiKeyInput p) originalText "" (stored p) rest
  end.

(** The popup when it opens: [API_KEY] is empty and nothing is cached. *)
Definition opened (page : UI) (input label : string) (storage : option string)
  : Panel :=
  mkPanel (mkState "" None page [] []) input label "" storage [].

End Settings.

(* ================================================================== *)
(** ** popup.js: the summary page *)

Module Render.
Import JsString.

(** [s.replace(/c/g, rep)] for a single character [c] and a replacement
    without [$]. *)
Fixpoint replaceEvery (c : ascii) (rep : string) (s : string) : string :=
  match s with
  | EmptyString => EmptyString
  | String x r =>
      if Ascii.eqb x c then rep ++ replaceEvery c rep r
      else String x (replaceEvery c rep r)
  end.

(** [(originalContent || "").replace(/</g, "&lt;").replace(/>/g, "&gt;")] *)
Definition safeOriginal (originalContent : string) : string :=
  replaceEvery ">" "&gt;" (replaceEvery "<" "&lt;" originalContent).

(** The character [c] occurs in [s]. *)
Fixpoint occurs (c : ascii) (s : string) : bool :=
  match s with
  | EmptyString => false
  | String x r => Ascii.eqb x c || occurs c r
  end.

End Render.

(* ================================================================== *)
(** ** The extractor in a document of either mode *)

Module Quirks.
Import JsString Extractor.

(** ASCII lower case of a code unit. *)
Definition lowerAscii (c : ascii) : ascii :=
  let n := N_of_ascii c in
  if ((65 <=? n)%N && (n <=? 90)%N)%bool then ascii_of_N (n + 32) else c.

Fixpoint lower (s : string) : string :=
  match s with
  | EmptyString => EmptyString
  | String c r => String (lowerAscii c) (lower r)
  end.

(** [el.matches(selector)] in a document that is in quirks mode ([quirks])
    or not: a class selector compares the class names ASCII
    case-insensitively in quirks mode and exactly otherwise; a type selector
    and the value of [role] compare as in [Extractor.matches]. *)
Definition matchesIn (quirks : bool) (sel : Selector) (n : Node) : bool :=
  match n with
  | Element tag classes role _ =>
      match sel with
      | SelTag name => String.eqb tag name
      | SelClass name =>
          if quirks
          then existsb (fun c => String.eqb (lower name) (lower c)) classes
          else existsb (String.eqb name) classes
      | SelRole value =>
          match role with
          | Some r => String.eqb r value
          | None => false
          end
      end
  | _ => false
  end.

(** [root.querySelectorAll(sel).forEach(el => el.remove())] *)
Fixpoint removeAllIn (quirks : bool) (sel : Selector) (root : Node) : Node :=
  match root with
  | Element tag classes role children =>
      Element tag classes role
        ((fix go (l : list Node) : list Node :=
            match l with
            | [] => []
            | child :: rest =>
                if matchesIn quirks sel child then go rest
                else removeAllIn quirks sel child :: go rest
            end) children)
  | _ => root
  end.

(** [root.querySelector(sel) !== null] *)
Fixpoint hasMatchIn (quirks : bool) (sel : Selector) (root : Node) : bool :=
  match root with
  | Element _ _ _ children =>
      (fix any (l : list Node) : bool :=
         match l with
         | [] => false
         | child :: rest =>
             matchesIn quirks sel child || hasMatchIn quirks sel child || any rest
         end) children
  | _ => false
  end.

(** [getVisibleText()] on a document of the given mode. *)
Definition getVisibleTextIn (quirks : bool) (body : Node) : string :=
  let clone := body in
  let clone :=
    fold_left (fun c sel => removeAllIn quirks sel c) noiseSelectors clone in
  let text := innerText clone in
  cleanWhitespace text.

End Quirks.

(* ================================================================== *)
(** ** Several calls in a session *)

Module Session.
Import Js Popup.


End Session.

(* ================================================================== *)
(** ** More concrete runs *)

Module Cases.
Import JsString Js Extractor Popup Settings Scenario.

(** A body that is not JSON, with an error status. *)
Definition gatewayPage : Response :=
  mkResponse false (Throw (mkExn SyntaxError "Unexpected token '<'")).

(** An error status whose body says nothing. *)
Definition bareFailure : Response :=
  mkResponse false (Return (JObj [])).

(** A success whose first part has no text. *)
Definition silentPart : Response :=
  mkResponse true (Return (JObj
    [("candidates",
      JArr [JObj [("content", JObj [("parts", JArr [JObj [("inlineData", JNull)]])])]])])).

(** A listing whose [models] is not a list. *)
Definition oddListing : Response :=
  mkResponse true (Return (JObj [("models", JStr "none")])).

Definition chrome : Browser := mkBrowser None None "#10b981".

(** A page without anything to read. *)
Definition emptyPage : Page :=
  mkPage "https://example.org/blank" "Blank"
    (Element "body" [] None [Element "script" [] None [Text "var x = 1;"];
                             Text "  "]).

Definition worldOn (page : Outcome (option Page)) (save copy : bool)
                   (clipboard : option Exn)
                   (reply : nat -> Request -> Outcome Response) : Env :=
  mkEnv reply
        (fun _ => Return "[object Object]") (fun _ => Return false)
        (Return (Some 7%Z)) page save copy clipboard.

(** The settings panel with [input] typed into the key field. *)
Definition typed (input : string) : Panel :=
  mkPanel (loaded "") input "Save Key" "" None [].

(** The clipboard refuses the write. *)
Definition denied : Exn := mkExn (OtherError "NotAllowedError") "Write permission denied.".



(** A body of a quirks-mode page with an advertisement of class AD. *)
Definition shoutingBody : Node :=
  Element "body" [] None
    [Element "div" ["AD"] None [Text "x"]; Element "p" [] None [Text "y"]].

(** A document without noise. *)
Definition plainBody : Node :=
  Element "body" ["ad"] None
    [Element "h1" [] None [Text "Title"];
     Element "p" [] None [Text " Some   text. "]].

End Cases.

(* ================================================================== *)
(** ** Proof steps *)

(** Unfolding of the sequencing operators of [Popup.M]. *)
Ltac unfoldM :=
  unfold Popup.bind, Popup.tryCatch, Popup.lift, Popup.gets, Popup.modify,
    Popup.emit, Popup.ret, Popup.throw, Popup.fetch in *.

(** Case analysis on every completion and test the goal still scrutinises,
    innermost scrutinee first. *)
Ltac cases :=
  repeat match goal with
         | |- context [match ?x with _ => _ end] =>
             lazymatch x with
             | match _ with _ => _ end => fail
             | (match _ with _ => _ end) _ => fail
             | _ => destruct x eqn:?; simpl
             end
         end.

(* ================================================================== *)
(** ** Facts about strings *)

Section StringFacts.
Import JsString.

Lemma startsWith_app (p r : string) : startsWith (p ++ r) p = true.
Proof.
  induction p as [|a p IH]; simpl.
  - reflexivity.
  - now rewrite Ascii.eqb_refl.
Qed.

Lemma startsWith_split (s p : string) :
  startsWith s p = true -> exists r, s = p ++ r.
Proof.
  revert s; induction p as [|a p IH]; intros s H.
  - now exists s.
  - destruct s as [|b s]; simpl in H; [discriminate|].
    apply andb_true_iff in H as [Hab Hp].
    apply Ascii.eqb_eq in Hab; subst b.
    destruct (IH _ Hp) as [r ->].
    now exists r.
Qed.

Lemma includes_startsWith (s p : string) :
  startsWith s p = true -> includes s p = true.
Proof. intros H. destruct s; simpl; now rewrite H. Qed.

(** [includes] is the substring test. *)
Lemma includes_spec (s p : string) :
  includes s p = true <-> exists a b, s = a ++ p ++ b.
Proof.
  split.
  - induction s as [|c s IH]; simpl.
    + destruct (startsWith "" p) eqn:E; [|discriminate].
      intros _. destruct (startsWith_split _ _ E) as [r Hr].
      now exists "", r.
    + destruct (startsWith (String c s) p) eqn:E.
      * intros _. destruct (startsWith_split _ _ E) as [r Hr].
        now exists "", r.
      * intros H. destruct (IH H) as (a & b & ->).
        now exists (String c a), b.
  - intros (a & b & ->).
    induction a as [|c a IH]; simpl.
    + apply includes_startsWith, startsWith_app.
    + destruct (startsWith (String c (a ++ p ++ b)) p); [reflexivity | exact IH].
Qed.

Lemma skipn_app (p r : string) : skipn (String.length p) (p ++ r) = r.
Proof. induction p; simpl; auto. Qed.

(** A leading occurrence of the pattern is the one [replace] removes. *)
Lemma replace_prefix (p r rep : string) : replace (p ++ r) p rep = rep ++ r.
Proof.
  assert (H : forall s, startsWith s p = true ->
                       replace s p rep = rep ++ skipn (String.length p) s).
  { intros s E. destruct s; simpl; now rewrite E. }
  rewrite H by apply startsWith_app.
  now rewrite skipn_app.
Qed.

(** A string without the pattern is left as it is. *)
Lemma replace_absent (s p rep : string) :
  includes s p = false -> replace s p rep = s.
Proof.
  induction s as [|c s IH]; simpl.
  - destruct (startsWith "" p); [discriminate | reflexivity].
  - destruct (startsWith (String c s) p); [discriminate|].
    intros H. now rewrite IH.
Qed.

Lemma strlen_app (a b : string) : strlen (a ++ b) = (strlen a + strlen b)%N.
Proof. induction a; simpl; [reflexivity | rewrite IHa; lia]. Qed.

Lemma slice0_length (n : N) (s : string) :
  strlen (slice0 n s) = N.min n (strlen s).
Proof.
  revert n; induction s as [|c s IH]; intros n; simpl.
  - lia.
  - destruct (N.eqb_spec n 0); simpl; [lia|].
    rewrite IH. lia.
Qed.

Lemma slice0_all (n : N) (s : string) :
  (strlen s <= n)%N -> slice0 n s = s.
Proof.
  revert n; induction s as [|c s IH]; intros n H; simpl in *.
  - reflexivity.
  - destruct (N.eqb_spec n 0); [lia|].
    rewrite IH; [reflexivity | lia].
Qed.

Lemma slice0_prefix (n : N) (s : string) :
  exists rest, s = slice0 n s ++ rest.
Proof.
  revert n; induction s as [|c s IH]; intros n; simpl.
  - now exists "".
  - destruct (N.eqb_spec n 0).
    + now exists (String c s).
    + destruct (IH (N.pred n)) as [rest Hr].
      exists rest. simpl. now rewrite <- Hr.
Qed.

End StringFacts.

(* ================================================================== *)
(** ** White-space collapsing and trimming *)

Section WhiteSpaceFacts.
Import JsString.
Variable ws : ascii -> bool.

Lemma hasRun_cons (c : ascii) (t : string) :
  hasRun ws (String c t) = (ws c && startsWithSpace ws t) || hasRun ws t.
Proof. destruct t; simpl; [now rewrite andb_false_r | reflexivity]. Qed.

(** [hasRun] finds exactly the adjacent pairs of white-space code units. *)
Lemma hasRun_spec (s : string) :
  hasRun ws s = true <->
  exists a c d b, s = a ++ String c (String d b) /\ ws c = true /\ ws d = true.
Proof.
  split.
  - induction s as [|c r IH]; [discriminate|].
    rewrite hasRun_cons. intros H. apply orb_true_iff in H as [H | H].
    + apply andb_true_iff in H as [Hc Hd].
      destruct r as [|d b]; [discriminate|].
      exists "", c, d, b. auto.
    + destruct (IH H) as (a & c' & d & b & -> & Hc & Hd).
      exists (String c a), c', d, b. auto.
  - intros (a & c & d & b & -> & Hc & Hd).
    induction a as [|x a IH]; cbn [append].
    + rewrite hasRun_cons. simpl. now rewrite Hc, Hd.
    + rewrite hasRun_cons, IH. apply orb_true_r.
Qed.

(** [endsWithSpace] looks at the last code unit. *)
Lemma endsWithSpace_spec (s : string) :
  endsWithSpace ws s = true <-> exists a c, s = a ++ String c "" /\ ws c = true.
Proof.
  split.
  - induction s as [|c r IH]; [discriminate|].
    destruct r as [|d r'].
    + simpl. intros H. now exists "", c.
    + intros H. destruct (IH H) as (a & c' & Ha & Hc).
      exists (String c a), c'. simpl. now rewrite Ha.
  - intros (a & c & -> & Hc).
    induction a as [|x a IH]; [exact Hc|].
    cbn [append]. destruct a; exact IH.
Qed.

Lemma replaceRunsFrom_shape (s : string) : forall b,
  onlyPlainSpaces ws (replaceRunsFrom ws b s) = true /\
  hasRun ws (replaceRunsFrom ws b s) = false /\
  (b = true -> startsWithSpace ws (replaceRunsFrom ws b s) = false).
Proof.
  induction s as [|c r IH]; intros b.
  - simpl. auto.
  - cbn [replaceRunsFrom]. destruct (ws c) eqn:Hc.
    + destruct b.
      * apply IH.
      * destruct (IH true) as (Hp & Hr & Hs).
        rewrite hasRun_cons. cbn [onlyPlainSpaces].
        rewrite Hp, Hr, (Hs eq_refl), Ascii.eqb_refl, andb_false_r, orb_true_r.
        repeat split. discriminate.
    + destruct (IH false) as (Hp & Hr & _).
      rewrite hasRun_cons. cbn [onlyPlainSpaces startsWithSpace].
      rewrite Hp, Hr, Hc. auto.
Qed.

Lemma trimStart_shape (s : string) :
  startsWithSpace ws (trimStart ws s) = false /\
  (onlyPlainSpaces ws s = true -> onlyPlainSpaces ws (trimStart ws s) = true) /\
  (hasRun ws s = false -> hasRun ws (trimStart ws s) = false).
Proof.
  induction s as [|c r (Hs & Hp & Hr)].
  - simpl. auto.
  - cbn [trimStart]. destruct (ws c) eqn:Hc.
    + split; [exact Hs | split].
      * cbn [onlyPlainSpaces]. intros H. apply andb_true_iff in H as [_ H]. auto.
      * rewrite hasRun_cons. intros H. apply orb_false_iff in H as [_ H]. auto.
    + simpl startsWithSpace. auto.
Qed.

Lemma trimEnd_head (s : string) (d : ascii) (t : string) :
  trimEnd ws s = String d t -> exists r, s = String d r.
Proof.
  destruct s as [|c r]; cbn [trimEnd]; [discriminate|].
  destruct (trimEnd ws r); [destruct (ws c)|]; intros H; inversion H; subst; eauto.
Qed.

Lemma startsWithSpace_trimEnd (s : string) :
  startsWithSpace ws (trimEnd ws s) = startsWithSpace ws s
  \/ trimEnd ws s = "".
Proof.
  destruct (trimEnd ws s) as [|d t] eqn:E; [now right | left].
  destruct (trimEnd_head _ _ _ E) as [r ->]. reflexivity.
Qed.

Lemma trimEnd_shape (s : string) :
  endsWithSpace ws (trimEnd ws s) = false /\
  (startsWithSpace ws s = false -> startsWithSpace ws (trimEnd ws s) = false) /\
  (onlyPlainSpaces ws s = true -> onlyPlainSpaces ws (trimEnd ws s) = true) /\
  (hasRun ws s = false -> hasRun ws (trimEnd ws s) = false).
Proof.
  induction s as [|c r (He & _ & Hp & Hr)].
  - simpl. auto.
  - split; [|split; [|split]].
    + cbn [trimEnd]. destruct (trimEnd ws r) as [|d t].
      * destruct (ws c) eqn:Hc; simpl; auto.
      * exact He.
    + intros H. destruct (startsWithSpace_trimEnd (String c r)) as [E | E];
        rewrite E; auto.
    + cbn [onlyPlainSpaces]. intros H. apply andb_true_iff in H as [Hc H].
      specialize (Hp H). cbn [trimEnd].
      destruct (trimEnd ws r) as [|d t].
      * destruct (ws c) eqn:E; [reflexivity|].
        cbn [onlyPlainSpaces]. now rewrite E.
      * cbn [onlyPlainSpaces] in *. now rewrite Hc, Hp.
    + rewrite hasRun_cons. intros H. apply orb_false_iff in H as [Hc H].
      specialize (Hr H). cbn [trimEnd].
      destruct (trimEnd ws r) as [|d t] eqn:E.
      * destruct (ws c); reflexivity.
      * rewrite hasRun_cons, Hr, orb_false_r.
        destruct (trimEnd_head _ _ _ E) as [r' ->]. exact Hc.
Qed.

(** A string that is already collapsed is left alone by the replacement. *)
Lemma replaceRunsFrom_fixed (s : string) : forall b,
  onlyPlainSpaces ws s = true ->
  hasRun ws s = false ->
  (b = true -> startsWithSpace ws s = false) ->
  replaceRunsFrom ws b s = s.
Proof.
  induction s as [|c r IH]; intros b Hp Hr Hs; [reflexivity|].
  cbn [onlyPlainSpaces] in Hp. apply andb_true_iff in Hp as [Hc Hp].
  rewrite hasRun_cons in Hr. apply orb_false_iff in Hr as [Hcr Hr].
  cbn [replaceRunsFrom]. destruct (ws c) eqn:E.
  - destruct b; [specialize (Hs eq_refl); simpl in Hs; congruence|].
    simpl in Hc. apply Ascii.eqb_eq in Hc. subst c.
    f_equal. apply IH; auto.
  - f_equal. apply IH; auto. discriminate.
Qed.

Lemma trimStart_fixed (s : string) :
  startsWithSpace ws s = false -> trimStart ws s = s.
Proof. destruct s; simpl; [reflexivity | now intros ->]. Qed.

Lemma trimEnd_fixed (s : string) :
  endsWithSpace ws s = false -> trimEnd ws s = s.
Proof.
  induction s as [|c r IH]; [reflexivity|].
  cbn [trimEnd]. destruct r as [|d r'].
  - simpl. now intros ->.
  - intros H. rewrite IH by exact H. reflexivity.
Qed.

(** What [s.replace(/\s+/g, ' ').trim()] returns, whichever code units count
    as white space. *)
Lemma collapse_trim_shape (s : string) :
  let out := trim ws (replaceRuns ws s) in
  onlyPlainSpaces ws out = true /\ hasRun ws out = false /\
  startsWithSpace ws out = false /\ endsWithSpace ws out = false.
Proof.
  cbv zeta. unfold trim, replaceRuns.
  destruct (replaceRunsFrom_shape s false) as (Hp & Hr & _).
  destruct (trimStart_shape (replaceRunsFrom ws false s)) as (Hs1 & Hp1 & Hr1).
  destruct (trimEnd_shape (trimStart ws (replaceRunsFrom ws false s)))
    as (He2 & Hs2 & Hp2 & Hr2).
  auto 6.
Qed.

Lemma collapse_trim_fixed (s : string) :
  onlyPlainSpaces ws s = true -> hasRun ws s = false ->
  startsWithSpace ws s = false -> endsWithSpace ws s = false ->
  trim ws (replaceRuns ws s) = s.
Proof.
  intros Hp Hr Hs He. unfold trim, replaceRuns.
  rewrite replaceRunsFrom_fixed by (auto; discriminate).
  rewrite trimStart_fixed by exact Hs.
  now apply trimEnd_fixed.
Qed.

Lemma collapse_trim_idempotent (s : string) :
  trim ws (replaceRuns ws (trim ws (replaceRuns ws s))) = trim ws (replaceRuns ws s).
Proof.
  destruct (collapse_trim_shape s) as (Hp & Hr & Hs & He).
  now apply collapse_trim_fixed.
Qed.

End WhiteSpaceFacts.

(* ================================================================== *)
(** ** The generation call *)

Section GenerationFacts.
Import JsString Js Popup.
Variable env : Env.

(** One generation call issues exactly one request: the POST that carries
    the prompt and the truncated text. *)
Lemma tryGenerateContent_state (modelName text : string) (st : State) :
  snd (tryGenerateContent env modelName text st)
  = logRequest (generateRequest modelName (API_KEY st) text) st.
Proof.
  unfold tryGenerateContent. unfoldM. simpl. cases; reflexivity.
Qed.

Lemma tryGenerateContent_requests (modelName text : string) (st : State) :
  requests (snd (tryGenerateContent env modelName text st))
  = (requests st ++ [generateRequest modelName (API_KEY st) text])%list.
Proof. now rewrite tryGenerateContent_state. Qed.

(** A rejected [fetch] is what the call throws. *)
Lemma tryGenerateContent_rejected (modelName text : string) (st : State) (e : Exn) :
  fetchReply env (List.length (requests st))
             (generateRequest modelName (API_KEY st) text) = Throw e ->
  tryGenerateContent env modelName text st
  = (Throw e, logRequest (generateRequest modelName (API_KEY st) text) st).
Proof.
  intros H. unfold tryGenerateContent. unfoldM. simpl. now rewrite H.
Qed.

(** What the call sends is the prompt followed by a prefix of the text. *)
Lemma generateRequest_payload (modelName key text : string) :
  payload (generateRequest modelName key text)
  = Some (generatePayload (prompt ++ slice0 maxLength text)).
Proof. reflexivity. Qed.

(** C8: the generation call sends one request, and the text in its body is
    the prompt followed by the first 100,000 characters of the input text
    and nothing else of the input: that part is a prefix of the input, it is
    the whole input when the input has at most 100,000 characters and has
    exactly 100,000 characters otherwise, and two inputs with the same first
    100,000 characters give the same request. *)
Theorem generation_sends_truncated_prefix (modelName text : string) (st : State) :
  let sent := slice0 100000 text in
  requests (snd (tryGenerateContent env modelName text st))
  = (requests st ++
       [mkRequest (generateEndpoint modelName (API_KEY st)) POST
                  [("Content-Type", "application/json")]
                  (Some (JObj [("contents",
                     JArr [JObj [("parts",
                       JArr [JObj [("text", JStr (prompt ++ sent))]])]])]))])%list
  /\ (exists dropped, text = sent ++ dropped)
  /\ strlen sent = N.min 100000 (strlen text)
  /\ ((strlen text <= 100000)%N -> sent = text)
  /\ ((100000 < strlen text)%N -> strlen sent = 100000%N)
  /\ (forall other, slice0 100000 other = sent ->
        requests (snd (tryGenerateContent env modelName other st))
        = requests (snd (tryGenerateContent env modelName text st))).
Proof.
  cbv zeta. split; [exact (tryGenerateContent_requests modelName text st)|].
  split; [apply slice0_prefix|].
  split; [apply slice0_length|].
  split; [apply slice0_all|].
  split.
  - intros H. rewrite slice0_length. lia.
  - intros other H. rewrite !tryGenerateContent_requests.
    unfold generateRequest, maxLength. now rewrite H.
Qed.

(** The completion of a generation call whose response is a success. *)
Lemma tryGenerateContent_ok (modelName text : string) (st : State) (data : JSON) :
  fetchReply env (List.length (requests st))
             (generateRequest modelName (API_KEY st) text)
    = Return (mkResponse true (Return data)) ->
  tryGenerateContent env modelName text st
  = ((let? candidates := get (Some data) "candidates" in
      let? nonEmpty := (if truthy candidates
                        then let? len := get candidates "length" in gtZero env len
                        else Return false) in
      if nonEmpty then
        let? first := index0 candidates in
        let? content := get first "content" in
        let? parts := get content "parts" in
        let? part := index0 parts in
        get part "text"
      else Throw (mkExn Error "No summary returned from Gemini.")),
     logRequest (generateRequest modelName (API_KEY st) text) st).
Proof.
  intros H. unfold tryGenerateContent. unfoldM. simpl. rewrite H. simpl.
  unfold bindO. cases; congruence.
Qed.

(** The sweep over a list of candidates run in two parts. *)
Lemma sweep_app (before after : list string) (text : string) :
  forall (lastError : option Exn) (st : State),
  sweep env (before ++ after) text lastError st
  = match sweep env before text lastError st with
    | (Return (Exhausted lastError'), st') => sweep env after text lastError' st'
    | other => other
    end.
Proof.
  induction before as [|m before IH]; intros lastError st; simpl.
  - reflexivity.
  - destruct (tryGenerateContent env m text st) as [[v|e] st'].
    + reflexivity.
    + destruct (profound e); [reflexivity | apply IH].
Qed.

(** An exception of the sweep is the exception of [callGeminiAPI]. *)
Lemma callGeminiAPI_sweep_throws (text : string) (st st' : State) (e : Exn) :
  sweep env (modelsToTry (validModelName st)) text None st = (Throw e, st') ->
  callGeminiAPI env text st = (Throw e, st').
Proof.
  intros H. unfold callGeminiAPI. unfoldM. simpl. now rewrite H.
Qed.

(** A result of the sweep is the result of [callGeminiAPI]. *)
Lemma callGeminiAPI_sweep_returns (text : string) (st st' : State) (v : Val) :
  sweep env (modelsToTry (validModelName st)) text None st = (Return (Returned v), st') ->
  callGeminiAPI env text st = (Return v, st').
Proof.
  intros H. unfold callGeminiAPI. unfoldM. simpl. now rewrite H.
Qed.

Lemma callGeminiAPI_sweep_exhausted (text : string) (st st' : State)
      (lastError : option Exn) :
  sweep env (modelsToTry (validModelName st)) text None st
    = (Return (Exhausted lastError), st') ->
  callGeminiAPI env text st = discover env text lastError st'.
Proof.
  intros H. unfold callGeminiAPI. unfoldM. simpl. now rewrite H.
Qed.

Lemma profound_spec (e : Exn) :
  profound e = false <->
  includes (message e) "not found" = true \/ includes (message e) "not supported" = true.
Proof.
  unfold profound.
  destruct (includes (message e) "not found"), (includes (message e) "not supported");
    simpl; intuition congruence.
Qed.

(** C4: in the sweep, a failed generation whose message contains "not found"
    or "not supported" becomes [lastError] and the sweep goes on with the next
    candidate; a failure whose message contains neither (a rejected [fetch]
    among them) ends the sweep and the whole call with that very error, and
    no request follows the failed one. *)
Theorem sweep_classifies_failures
        (before rest : list string) (model text : string)
        (st0 st st' : State) (earlier : option Exn) (e : Exn) :
  sweep env before text None st0 = (Return (Exhausted earlier), st) ->
  tryGenerateContent env model text st = (Throw e, st') ->
  (includes (message e) "not found" = true \/
   includes (message e) "not supported" = true ->
     sweep env (before ++ model :: rest) text None st0
     = sweep env rest text (Some e) st')
  /\
  (includes (message e) "not found" = false ->
   includes (message e) "not supported" = false ->
     sweep env (before ++ model :: rest) text None st0 = (Throw e, st')
     /\ requests st' = (requests st ++ [generateRequest model (API_KEY st) text])%list
     /\ (modelsToTry (validModelName st0) = (before ++ model :: rest)%list ->
         callGeminiAPI env text st0 = (Throw e, st')))
  /\
  (forall rejection,
     fetchReply env (List.length (requests st))
                (generateRequest model (API_KEY st) text) = Throw rejection ->
     e = rejection).
Proof.
  intros Hbefore Hgen. split; [|split].
  - intros Hretry. apply profound_spec in Hretry.
    rewrite sweep_app, Hbefore. simpl. now rewrite Hgen, Hretry.
  - intros Hnf Hns.
    assert (Hp : profound e = true) by (unfold profound; now rewrite Hnf, Hns).
    assert (Hs : sweep env (before ++ model :: rest) text None st0 = (Throw e, st')).
    { rewrite sweep_app, Hbefore. simpl. now rewrite Hgen, Hp. }
    split; [exact Hs | split].
    + rewrite <- (tryGenerateContent_requests model text st), Hgen. reflexivity.
    + intros Hlist. apply callGeminiAPI_sweep_throws. now rewrite Hlist.
  - intros rejection Hrej.
    rewrite (tryGenerateContent_rejected _ _ _ _ Hrej) in Hgen. congruence.
Qed.

(** C5: a successful response whose body has no [candidates] field, or an
    empty [candidates] list, makes the generation call throw
    "No summary returned from Gemini."; the sweep treats that error as fatal:
    it ends there, whatever candidates remain. *)
Theorem empty_candidates_is_fatal
        (modelName text : string) (st : State) (fields : list (string * JSON))
        (rest : list string) (lastError : option Exn) :
  fetchReply env (List.length (requests st))
             (generateRequest modelName (API_KEY st) text)
    = Return (mkResponse true (Return (JObj fields))) ->
  field "candidates" fields = None \/ field "candidates" fields = Some (JArr []) ->
  let noSummary := mkExn Error "No summary returned from Gemini." in
  let st' := logRequest (generateRequest modelName (API_KEY st) text) st in
  tryGenerateContent env modelName text st = (Throw noSummary, st')
  /\ profound noSummary = true
  /\ sweep env (modelName :: rest) text lastError st = (Throw noSummary, st')
  /\ (modelsToTry (validModelName st) = modelName :: rest ->
      callGeminiAPI env text st = (Throw noSummary, st')).
Proof.
  intros Hreply Hcand. cbv zeta.
  assert (Hgen : tryGenerateContent env modelName text st
                 = (Throw (mkExn Error "No summary returned from Gemini."),
                    logRequest (generateRequest modelName (API_KEY st) text) st)).
  { rewrite (tryGenerateContent_ok _ _ _ _ Hreply). simpl.
    destruct Hcand as [-> | ->]; reflexivity. }
  assert (Hs : forall le, sweep env (modelName :: rest) text le st
               = (Throw (mkExn Error "No summary returned from Gemini."),
                  logRequest (generateRequest modelName (API_KEY st) text) st)).
  { intros le. simpl. now rewrite Hgen. }
  repeat split; auto.
  intros Hlist. apply callGeminiAPI_sweep_throws. rewrite Hlist. apply Hs.
Qed.

(** C10: a successful response with a non-empty [candidates] list makes the
    generation call throw a [TypeError] of the engine, not one of the errors
    the client builds, when the first candidate has no [content], when its
    [content] has no [parts], and when [parts] is an empty list. *)
Theorem malformed_candidate_type_error
        (modelName text : string) (st : State) (fields : list (string * JSON))
        (first : list (string * JSON)) (others : list JSON) :
  fetchReply env (List.length (requests st))
             (generateRequest modelName (API_KEY st) text)
    = Return (mkResponse true (Return (JObj fields))) ->
  field "candidates" fields = Some (JArr (JObj first :: others)) ->
  let st' := logRequest (generateRequest modelName (API_KEY st) text) st in
  (field "content" first = None ->
     tryGenerateContent env modelName text st
     = (Throw (mkExn TypeError
                     "Cannot read properties of undefined (reading 'parts')"), st'))
  /\
  (forall content,
     field "content" first = Some (JObj content) ->
     field "parts" content = None ->
     tryGenerateContent env modelName text st
     = (Throw (mkExn TypeError
                     "Cannot read properties of undefined (reading '0')"), st'))
  /\
  (forall content,
     field "content" first = Some (JObj content) ->
     field "parts" content = Some (JArr []) ->
     tryGenerateContent env modelName text st
     = (Throw (mkExn TypeError
                     "Cannot read properties of undefined (reading 'text')"), st')).
Proof.
  intros Hreply Hcand. cbv zeta.
  rewrite (tryGenerateContent_ok _ _ _ _ Hreply). simpl. rewrite Hcand. simpl.
  split; [|split].
  - intros ->. reflexivity.
  - intros content Hcontent Hparts. rewrite Hcontent. simpl. now rewrite Hparts.
  - intros content Hcontent Hparts. rewrite Hcontent. simpl. now rewrite Hparts.
Qed.

(** X12: a first part without a [text] field is not an error of the call:
    the summary is [undefined]. *)
Lemma part_without_text_is_undefined
      (modelName text : string) (st : State) (fields : list (string * JSON))
      (first content part : list (string * JSON)) (others parts : list JSON) :
  fetchReply env (List.length (requests st))
             (generateRequest modelName (API_KEY st) text)
    = Return (mkResponse true (Return (JObj fields))) ->
  field "candidates" fields = Some (JArr (JObj first :: others)) ->
  field "content" first = Some (JObj content) ->
  field "parts" content = Some (JArr (JObj part :: parts)) ->
  field "text" part = None ->
  fst (tryGenerateContent env modelName text st) = Return None.
Proof.
  intros Hreply Hcand Hcontent Hparts Htext.
  rewrite (tryGenerateContent_ok _ _ _ _ Hreply). simpl.
  rewrite Hcand. simpl. rewrite Hcontent. simpl. rewrite Hparts. simpl.
  now rewrite Htext.
Qed.

End GenerationFacts.

(* ================================================================== *)
(** ** Dynamic discovery *)

Section DiscoveryFacts.
Import JsString Js Popup Provider.
Variable env : Env.

(** [checkModels] never throws. *)
Lemma checkModels_returns (st : State) :
  exists found, fst (checkModels env st) = Return found.
Proof.
  unfold checkModels. unfoldM. simpl. cases; eexists; reflexivity.
Qed.

(** With a key, [checkModels] issues the listing request and nothing else. *)
Lemma checkModels_state (st : State) :
  API_KEY st <> "" ->
  snd (checkModels env st) = logRequest (listRequest (API_KEY st)) st.
Proof.
  intros Hkey. apply String.eqb_neq in Hkey.
  unfold checkModels. unfoldM. simpl. rewrite Hkey. cases; reflexivity.
Qed.

(** A listing that is rejected, not a success, or not JSON gives [null]. *)
Lemma checkModels_degrades (st : State) :
  let listing := fetchReply env (List.length (requests st)) (listRequest (API_KEY st)) in
  (forall e, listing = Throw e -> fst (checkModels env st) = Return None)
  /\ (forall resp, listing = Return resp -> ok resp = false ->
      fst (checkModels env st) = Return None)
  /\ (forall resp e, listing = Return resp -> json resp = Throw e ->
      fst (checkModels env st) = Return None).
Proof.
  cbv zeta. unfold checkModels. unfoldM. simpl.
  destruct (String.eqb (API_KEY st) ""); simpl; [auto|].
  repeat split.
  - intros e ->. reflexivity.
  - intros resp -> Hok. simpl. rewrite Hok. cases; reflexivity.
  - intros resp e -> Hjson. simpl. now rewrite Hjson.
Qed.

(** The filter callback on an entry of the documented shape. *)
Lemma capable_wellFormed (m : JSON) :
  wellFormedEntry m = true -> capable m = Return (supportsGenerateContent m).
Proof.
  destruct m as [| | | | |fields]; try discriminate. unfold capable. simpl.
  destruct (field "supportedGenerationMethods" fields) as [[| | | | |]|];
    simpl; intros H; try reflexivity;
    apply andb_true_iff in H as [_ H]; discriminate.
Qed.

Lemma filterO_wellFormed (models : list JSON) :
  forallb wellFormedEntry models = true ->
  filterO capable models = Return (filter supportsGenerateContent models).
Proof.
  induction models as [|m models IH]; simpl; [reflexivity|].
  intros H. apply andb_true_iff in H as [Hm H].
  rewrite (capable_wellFormed m Hm). simpl. rewrite (IH H). simpl.
  destruct (supportsGenerateContent m); reflexivity.
Qed.

Lemma bareName_wellFormed (m : JSON) :
  wellFormedEntry m = true ->
  bareName m = Return (replace (nameOf m) "models/" "").
Proof.
  destruct m as [| | | | |fields]; try discriminate. unfold bareName. simpl.
  destruct (field "name" fields) as [[| | | | |]|]; simpl; try discriminate.
  reflexivity.
Qed.

Lemma mapO_wellFormed (models : list JSON) :
  forallb wellFormedEntry models = true ->
  mapO bareName models
  = Return (map (fun m => replace (nameOf m) "models/" "") models).
Proof.
  induction models as [|m models IH]; simpl; [reflexivity|].
  intros H. apply andb_true_iff in H as [Hm H].
  rewrite (bareName_wellFormed m Hm). simpl. now rewrite (IH H).
Qed.

Lemma forallb_filter (f p : JSON -> bool) (l : list JSON) :
  forallb f l = true -> forallb f (filter p l) = true.
Proof.
  induction l as [|x l IH]; simpl; [reflexivity|].
  intros H. apply andb_true_iff in H as [Hx H].
  destruct (p x); simpl; [rewrite Hx|]; auto.
Qed.

(** The candidates [checkModels] returns for a well-formed listing. *)
Lemma checkModels_wellFormed (st : State) (fields : list (string * JSON))
      (models : list JSON) :
  API_KEY st <> "" ->
  fetchReply env (List.length (requests st)) (listRequest (API_KEY st))
    = Return (mkResponse true (Return (JObj fields))) ->
  field "models" fields = Some (JArr models) ->
  forallb wellFormedEntry models = true ->
  checkModels env st
  = (Return (Some (map (fun m => replace (nameOf m) "models/" "")
                       (filter supportsGenerateContent models))),
     logRequest (listRequest (API_KEY st)) st).
Proof.
  intros Hkey Hreply Hmodels Hwf. apply String.eqb_neq in Hkey.
  unfold checkModels. unfoldM. simpl. rewrite Hkey, Hreply. simpl.
  rewrite Hmodels. simpl.
  rewrite (filterO_wellFormed _ Hwf).
  rewrite (mapO_wellFormed _ (forallb_filter _ _ _ Hwf)). reflexivity.
Qed.

(** X13: a successful listing whose body has not the documented shape (a
    [null] body, a [models] that is a string, a [null] entry) gives no
    candidates either: the [TypeError] stays inside [checkModels]. *)
Lemma checkModels_malformed (st : State) (data : JSON) :
  fetchReply env (List.length (requests st)) (listRequest (API_KEY st))
    = Return (mkResponse true (Return data)) ->
  (data = JNull -> fst (checkModels env st) = Return None)
  /\ (forall fields s, data = JObj fields ->
        field "models" fields = Some (JStr s) -> s <> "" ->
        fst (checkModels env st) = Return None)
  /\ (forall fields entries, data = JObj fields ->
        field "models" fields = Some (JArr (JNull :: entries)) ->
        fst (checkModels env st) = Return None).
Proof.
  intros Hreply. unfold checkModels. unfoldM. simpl.
  destruct (String.eqb (API_KEY st) ""); simpl; [auto|].
  rewrite Hreply. simpl. repeat split.
  - intros ->. reflexivity.
  - intros fields s -> Hm Hs. simpl. rewrite Hm. simpl.
    apply String.eqb_neq in Hs. now rewrite Hs.
  - intros fields entries -> Hm. simpl. now rewrite Hm.
Qed.

(** C6: for a listing of the documented shape, discovery keeps exactly the
    entries whose [supportedGenerationMethods] includes "generateContent", in
    the provider's order, and takes the "models/" off the front of each name
    it keeps; the generation that follows is asked of the first of them. *)
Theorem discovery_filters_and_strips
        (text : string) (st : State) (lastError : option Exn)
        (fields : list (string * JSON)) (models : list JSON) :
  API_KEY st <> "" ->
  fetchReply env (List.length (requests st)) (listRequest (API_KEY st))
    = Return (mkResponse true (Return (JObj fields))) ->
  field "models" fields = Some (JArr models) ->
  forallb wellFormedEntry models = true ->
  let candidates :=
    map (fun m => replace (nameOf m) "models/" "")
        (filter supportsGenerateContent models) in
  checkModels env st
  = (Return (Some candidates), logRequest (listRequest (API_KEY st)) st)
  /\ (forall bare, replace ("models/" ++ bare) "models/" "" = bare)
  /\ (forall name, includes name "models/" = false ->
                   replace name "models/" "" = name)
  /\ (forall first others, candidates = first :: others ->
      requests (snd (discover env text lastError st))
      = (requests st ++ [listRequest (API_KEY st);
                         generateRequest first (API_KEY st) text])%list).
Proof.
  intros Hkey Hreply Hmodels Hwf. cbv zeta.
  split; [now apply (checkModels_wellFormed st fields models)|].
  split; [intros bare; apply (replace_prefix "models/" bare "")|].
  split; [intros name; apply replace_absent|].
  intros first others Hcand.
  unfold discover, setStatus. unfoldM. simpl.
  match goal with
  | |- context [checkModels env ?s] =>
      rewrite (checkModels_wellFormed s fields models Hkey Hreply Hmodels Hwf)
  end.
  rewrite Hcand. simpl.
  match goal with
  | |- context [tryGenerateContent env first text ?s] =>
      pose proof (tryGenerateContent_state env first text s) as Hst;
      destruct (tryGenerateContent env first text s) as [[v|e] s']
  end; simpl in *; subst s'; simpl; now rewrite <- app_assoc.
Qed.

Lemma sweep_exhausted (models : list string) (text : string) :
  forall (lastError lastError' : option Exn) (st st' : State),
  sweep env models text lastError st = (Return (Exhausted lastError'), st') ->
  (models = [] /\ lastError' = lastError)
  \/ exists e, lastError' = Some e /\ profound e = false.
Proof.
  induction models as [|m models IH]; simpl; intros le le' st st' H.
  - left. unfold ret in H. split; congruence.
  - right. destruct (tryGenerateContent env m text st) as [[v|e] s]; [discriminate|].
    destruct (profound e) eqn:Hp; [discriminate|].
    destruct (IH _ _ _ _ H) as [[_ ->] | Hex]; eauto.
Qed.

Lemma modelsToTry_not_empty (cached : option string) : modelsToTry cached <> [].
Proof.
  destruct cached as [m|]; simpl; [destruct (String.eqb m "")|]; discriminate.
Qed.

(** An error the sweep passes over has a message, so that is what the
    terminal error quotes. *)
Lemma lastMessage_retryable (e : Exn) :
  profound e = false -> lastMessage (Some e) = message e.
Proof.
  unfold profound, lastMessage, orElseString.
  destruct (String.eqb_spec (message e) ""); [|reflexivity].
  rewrite e0. discriminate.
Qed.

Lemma includes_suffix (a b : string) : includes (a ++ b) b = true.
Proof.
  apply includes_spec. exists a, "".
  f_equal. clear. induction b; simpl; congruence.
Qed.

Lemma includes_empty (s : string) : includes s "" = true.
Proof. destruct s; reflexivity. Qed.

(** C7: the discovery step never throws: a rejected listing, a response that
    is not a success and a body that is not JSON all give no candidates.
    When the sweep is exhausted and discovery gives no candidates, or the
    discovered candidate fails, [callGeminiAPI] throws the one error
    "Could not find any working Gemini model. Last error: ..." that ends with
    the message of the latest error ("Unknown" stands for a missing error, and
    for an error whose message is empty). *)
Theorem discovery_failure_is_terminal
        (text : string) (st st1 : State) (lastError : option Exn) :
  sweep env (modelsToTry (validModelName st)) text None st
    = (Return (Exhausted lastError), st1) ->
  let asked := snd (setStatus "Finding compatible model..." warning st1) in
  let listing :=
    fetchReply env (List.length (requests st1)) (listRequest (API_KEY st1)) in
  let terminal (detail : string) :=
    mkExn Error ("Could not find any working Gemini model. Last error: " ++ detail) in
  exists (last : Exn) (found : option (list string)) (st2 : State),
    lastError = Some last
    /\ checkModels env asked = (Return found, st2)
    /\ (forall e, listing = Throw e -> found = None)
    /\ (forall resp, listing = Return resp -> ok resp = false -> found = None)
    /\ (forall resp e, listing = Return resp -> json resp = Throw e -> found = None)
    /\ (found = None \/ found = Some [] ->
        callGeminiAPI env text st = (Throw (terminal (message last)), st2))
    /\ (forall m others e st3,
          found = Some (m :: others) ->
          tryGenerateContent env m text st2 = (Throw e, st3) ->
          callGeminiAPI env text st
          = (Throw (terminal (orElseString (message e) "Unknown")), st3)
          /\ includes (message (terminal (orElseString (message e) "Unknown")))
                      (message e) = true
          /\ (message e <> "" -> orElseString (message e) "Unknown" = message e))
    /\ noWorkingModel None = terminal "Unknown".
Proof.
  intros Hsweep. cbv zeta.
  destruct (sweep_exhausted _ _ _ _ _ _ Hsweep) as [[Hnil _] | (last & -> & Hlast)];
    [now apply modelsToTry_not_empty in Hnil|].
  remember (snd (setStatus "Finding compatible model..." warning st1)) as asked
    eqn:Hasked.
  unfold setStatus, modify in Hasked. simpl in Hasked.
  destruct (checkModels_returns asked) as [found Hfound].
  destruct (checkModels env asked) as [r st2] eqn:Hcheck. simpl in Hfound. subst r.
  pose proof (checkModels_degrades asked) as (Hrej & Hbad & Hjson).
  rewrite Hcheck in Hrej, Hbad, Hjson. simpl in Hrej, Hbad, Hjson.
  assert (Hreq : requests asked = requests st1) by (subst asked; reflexivity).
  assert (Hkey : API_KEY asked = API_KEY st1) by (subst asked; reflexivity).
  rewrite Hreq, Hkey in Hrej, Hbad, Hjson.
  assert (Hcall : callGeminiAPI env text st
                  = match found with
                    | Some (fallbackModel :: _) =>
                        match tryGenerateContent env fallbackModel text st2 with
                        | (Return result, st') =>
                            (Return result, setValidModelName (Some fallbackModel) st')
                        | (Throw e, st') => (Throw (noWorkingModel (Some e)), st')
                        end
                    | _ => (Throw (noWorkingModel (Some last)), st2)
                    end).
  { rewrite (callGeminiAPI_sweep_exhausted env _ _ _ _ Hsweep).
    unfold discover, setStatus. unfoldM. simpl. rewrite <- Hasked, Hcheck.
    destruct found as [[|m others]|]; reflexivity. }
  exists last, found, st2.
  split; [reflexivity|]. split; [reflexivity|].
  split; [intros e He; specialize (Hrej e He); congruence|].
  split; [intros resp Hr Hok; specialize (Hbad resp Hr Hok); congruence|].
  split; [intros resp e Hr Hj; specialize (Hjson resp e Hr Hj); congruence|].
  split; [|split].
  - intros Hnone. rewrite Hcall. unfold noWorkingModel.
    rewrite (lastMessage_retryable _ Hlast).
    destruct Hnone as [-> | ->]; reflexivity.
  - intros m others e st3 -> Hgen. rewrite Hcall, Hgen.
    split; [reflexivity | split].
    + cbn [message]. unfold orElseString.
      destruct (String.eqb_spec (message e) "") as [-> | _].
      * apply includes_empty.
      * apply includes_suffix.
    + intros Hne. unfold orElseString.
      apply String.eqb_neq in Hne. now rewrite Hne.
  - reflexivity.
Qed.

End DiscoveryFacts.

(* ================================================================== *)
(** ** The cached model *)

Section CacheFacts.
Import JsString Js Popup.
Variable env : Env.

Lemma tryGenerateContent_cache (modelName text : string) (st : State) :
  validModelName (snd (tryGenerateContent env modelName text st)) = validModelName st.
Proof. now rewrite tryGenerateContent_state. Qed.

(** The sweep never writes [validModelName], whichever way it ends. *)
Lemma sweep_cache (models : list string) (text : string) :
  forall (lastError : option Exn) (st : State),
  validModelName (snd (sweep env models text lastError st)) = validModelName st.
Proof.
  induction models as [|m models IH]; intros le st; simpl; [reflexivity|].
  pose proof (tryGenerateContent_cache m text st) as H.
  destruct (tryGenerateContent env m text st) as [[v|e] s]; simpl in *; [exact H|].
  destruct (profound e); simpl; [exact H|].
  now rewrite IH.
Qed.

Lemma checkModels_without_key (st : State) :
  API_KEY st = "" ->
  checkModels env st
  = (Return None, logEvent (Alert "Please enter an API Key first.") st).
Proof.
  intros H. unfold checkModels. unfoldM. simpl. now rewrite H.
Qed.




(** A candidate of the sweep that succeeds is returned, and the cache is
    left as it was: the loop returns before anything records the model. *)
Lemma sweep_success_keeps_cache (text : string) (st st' : State) (v : Val) :
  sweep env (modelsToTry (validModelName st)) text None st
    = (Return (Returned v), st') ->
  callGeminiAPI env text st = (Return v, st')
  /\ validModelName st' = validModelName st.
Proof.
  intros H. split; [now apply callGeminiAPI_sweep_returns|].
  pose proof (sweep_cache (modelsToTry (validModelName st)) text None st) as Hs.
  now rewrite H in Hs.
Qed.




(** C3: with an empty [API_KEY] the summarize handler ends at once: the
    status line shows the missing-key error, the settings open, and no
    request and no other outward effect is issued. *)
Theorem missing_key_stops_before_network (st : State) :
  API_KEY st = "" ->
  exists st',
    handleSummarize env st = (Return tt, st')
    /\ requests st' = requests st
    /\ events st' = events st
    /\ statusText (ui st') = "Missing API Key. Click 'Settings' to add it."
    /\ statusColor (ui st') = "#dc2626"
    /\ statusBackground (ui st') = "#fee2e2"
    /\ settingsHidden (ui st') = negb (settingsHidden (ui st))
    /\ validModelName st' = validModelName st.
Proof.
  intros Hkey. unfold handleSummarize, setStatus, toggleSettings. unfoldM. simpl.
  rewrite Hkey. simpl. eexists. split; [reflexivity|]. simpl.
  destruct (settingsHidden (ui st)); simpl; auto 10.
Qed.

End CacheFacts.

(* ================================================================== *)
(** ** The extractor *)

Section ExtractorFacts.
Import JsString Extractor.

(** C9: the text [getVisibleText] returns has no two adjacent white-space
    characters and neither starts nor ends with one, for every document; and
    collapsing and trimming a text that has been collapsed and trimmed gives
    it back. *)
Theorem extracted_text_is_collapsed (body : Node) :
  let out := getVisibleText body in
  hasRun isWhiteSpace out = false
  /\ startsWithSpace isWhiteSpace out = false
  /\ endsWithSpace isWhiteSpace out = false
  /\ cleanWhitespace out = out
  /\ (forall text, cleanWhitespace (cleanWhitespace text) = cleanWhitespace text).
Proof.
  cbv zeta. unfold getVisibleText.
  set (text := innerText _).
  destruct (collapse_trim_shape isWhiteSpace text) as (Hp & Hr & Hs & He).
  repeat split; auto.
  - apply (collapse_trim_idempotent isWhiteSpace).
  - intros t. apply (collapse_trim_idempotent isWhiteSpace).
Qed.

End ExtractorFacts.

(* ================================================================== *)
(** ** The theorems on concrete runs *)

Section Runs.
Import JsString Js Extractor Popup Provider Scenario.

(** The content script on the sample page: the navigation and the
    advertisement are gone and the white space is collapsed. *)
Example article_text : getVisibleText (body article) = "Gravity is optional.".
Proof. reflexivity. Qed.

(** A text longer than the budget is cut to the budget. *)
Example long_text_is_cut :
  strlen longText = 131072%N
  /\ strlen (slice0 maxLength longText) = 100000%N.
Proof. split; vm_compute; reflexivity. Qed.

(** C1: the provider rejects the first model of the static list as not found
    and answers for the second.  The call returns the second model's summary,
    [validModelName] is still [null] after it, and the next call asks the
    first model again before the second. *)
Theorem second_static_model_is_not_recorded :
  let env := world (server secondWorks (Return catalogue) "K") in
  let first := callGeminiAPI env "page text" (loaded "K") in
  let second := callGeminiAPI env "page text" (snd first) in
  fst first = Return (Some (JStr "A summary."))
  /\ map url (requests (snd first))
     = [generateEndpoint "gemini-1.5-flash" "K";
        generateEndpoint "gemini-1.5-flash-latest" "K"]
  /\ validModelName (snd first) = None
  /\ map url (requests (snd second))
     = [generateEndpoint "gemini-1.5-flash" "K";
        generateEndpoint "gemini-1.5-flash-latest" "K";
        generateEndpoint "gemini-1.5-flash" "K";
        generateEndpoint "gemini-1.5-flash-latest" "K"].
Proof. vm_compute. repeat split. Qed.

(** A discovered model is recorded, and the next call asks only it. *)
Example discovered_model_is_recorded :
  let env := world (server onlyNewWorks (Return catalogue) "K") in
  let first := callGeminiAPI env "page text" (loaded "K") in
  let second := callGeminiAPI env "page text" (snd first) in
  fst first = Return (Some (JStr "A summary."))
  /\ validModelName (snd first) = Some "gemini-2.0-flash"
  /\ map url (requests (snd first))
     = [generateEndpoint "gemini-1.5-flash" "K";
        generateEndpoint "gemini-1.5-flash-latest" "K";
        generateEndpoint "gemini-pro" "K";
        url (listRequest "K");
        generateEndpoint "gemini-2.0-flash" "K"]
  /\ map url (List.skipn 5 (requests (snd second)))
     = [generateEndpoint "gemini-2.0-flash" "K"].
Proof. vm_compute. repeat split. Qed.

(** An invalid key ends the call at the first candidate. *)
Example invalid_key_aborts :
  let env := world (server (answers keyInvalid) (Return catalogue) "K") in
  let run := callGeminiAPI env "page text" (loaded "K") in
  fst run = Throw (mkExn Error "API key not valid. Please pass a valid API key.")
  /\ map url (requests (snd run)) = [generateEndpoint "gemini-1.5-flash" "K"].
Proof. vm_compute. repeat split. Qed.

(** Every static candidate is missing and the listing is empty: the call
    ends with the terminal error that quotes the last "not found". *)
Example empty_listing_is_terminal :
  let env := world (server allMissing (Return (modelList [])) "K") in
  let run := callGeminiAPI env "page text" (loaded "K") in
  fst run
  = Throw (mkExn Error
      ("Could not find any working Gemini model. Last error: " ++
       "models/gemini-pro is not found for API version v1beta"))
  /\ validModelName (snd run) = None
  /\ map url (requests (snd run))
     = [generateEndpoint "gemini-1.5-flash" "K";
        generateEndpoint "gemini-1.5-flash-latest" "K";
        generateEndpoint "gemini-pro" "K";
        url (listRequest "K")].
Proof. vm_compute. repeat split. Qed.

(** The whole handler on the sample page. *)
Example summarize_sample_page :
  let env := world (server onlyNewWorks (Return catalogue) "K") in
  let run := handleSummarize env (loaded "K") in
  fst run = Return tt
  /\ statusText (ui (snd run)) = "Done! Summary ready."
  /\ events (snd run)
     = [ExecuteScript 7; SendMessage 7;
        OpenWindow "A post" "https://example.org/post"
                   "Gravity is optional." "A summary."]
  /\ validModelName (snd run) = Some "gemini-2.0-flash".
Proof. vm_compute. repeat split. Qed.

Lemma missing_key_stops_before_network_witness :
  let env := world (server onlyNewWorks (Return catalogue) "") in
  API_KEY (loaded "") = ""
  /\ exists st',
       handleSummarize env (loaded "") = (Return tt, st')
       /\ requests st' = requests (loaded "")
       /\ events st' = events (loaded "")
       /\ statusText (ui st') = "Missing API Key. Click 'Settings' to add it."
       /\ statusColor (ui st') = "#dc2626"
       /\ statusBackground (ui st') = "#fee2e2"
       /\ settingsHidden (ui st') = negb (settingsHidden (ui (loaded "")))
       /\ validModelName st' = validModelName (loaded "").
Proof.
  cbv zeta. split; [reflexivity|].
  apply (missing_key_stops_before_network
           (world (server onlyNewWorks (Return catalogue) "")) (loaded "")).
  reflexivity.
Defined.

Lemma sweep_classifies_failures_witness :
  let env := world (server secondWorks (Return catalogue) "K") in
  let st := loaded "K" in
  let e := mkExn Error "models/gemini-1.5-flash is not found for API version v1beta" in
  let st' := logRequest (generateRequest "gemini-1.5-flash" "K" "page text") st in
  tryGenerateContent env "gemini-1.5-flash" "page text" st = (Throw e, st')
  /\ includes (message e) "not found" = true
  /\ sweep env ([] ++ "gemini-1.5-flash" :: ["gemini-1.5-flash-latest"; "gemini-pro"])
           "page text" None st
     = sweep env ["gemini-1.5-flash-latest"; "gemini-pro"] "page text" (Some e) st'.
Proof.
  cbv zeta. split; [reflexivity | split; [reflexivity|]].
  apply (sweep_classifies_failures
           (world (server secondWorks (Return catalogue) "K"))
           [] ["gemini-1.5-flash-latest"; "gemini-pro"] "gemini-1.5-flash" "page text"
           (loaded "K") (loaded "K") _ None _ eq_refl eq_refl).
  left. reflexivity.
Defined.

Lemma empty_candidates_is_fatal_witness :
  let env := world (server (answers noCandidates) (Return catalogue) "K") in
  let st := loaded "K" in
  let noSummary := mkExn Error "No summary returned from Gemini." in
  let st' := logRequest (generateRequest "gemini-1.5-flash" "K" "page text") st in
  field "candidates" [("candidates", JArr [])] = Some (JArr [])
  /\ tryGenerateContent env "gemini-1.5-flash" "page text" st = (Throw noSummary, st')
  /\ profound noSummary = true
  /\ sweep env ("gemini-1.5-flash" :: ["gemini-1.5-flash-latest"; "gemini-pro"])
           "page text" None st = (Throw noSummary, st')
  /\ (modelsToTry (validModelName st)
      = "gemini-1.5-flash" :: ["gemini-1.5-flash-latest"; "gemini-pro"] ->
      callGeminiAPI env "page text" st = (Throw noSummary, st')).
Proof.
  cbv zeta. split; [reflexivity|].
  apply (empty_candidates_is_fatal
           (world (server (answers noCandidates) (Return catalogue) "K"))
           "gemini-1.5-flash" "page text" (loaded "K") [("candidates", JArr [])]
           ["gemini-1.5-flash-latest"; "gemini-pro"] None eq_refl).
  right. reflexivity.
Defined.

Lemma discovery_filters_and_strips_witness :
  let env := world (server onlyNewWorks (Return catalogue) "K") in
  let st := loaded "K" in
  forallb wellFormedEntry
    [modelEntry "models/embedding-001" ["embedContent"];
     modelEntry "models/gemini-2.0-flash" ["generateContent"; "countTokens"];
     modelEntry "models/gemini-pro" ["generateContent"]] = true
  /\ checkModels env st
     = (Return (Some ["gemini-2.0-flash"; "gemini-pro"]),
        logRequest (listRequest "K") st)
  /\ requests (snd (discover env "page text" None st))
     = [listRequest "K"; generateRequest "gemini-2.0-flash" "K" "page text"].
Proof.
  cbv zeta. split; [reflexivity|].
  pose proof (discovery_filters_and_strips
                (world (server onlyNewWorks (Return catalogue) "K"))
                "page text" (loaded "K") None
                [("models",
                  JArr [modelEntry "models/embedding-001" ["embedContent"];
                        modelEntry "models/gemini-2.0-flash"
                                   ["generateContent"; "countTokens"];
                        modelEntry "models/gemini-pro" ["generateContent"]])]
                _ ltac:(discriminate) eq_refl eq_refl eq_refl) as (H1 & _ & _ & H4).
  split; [exact H1|].
  exact (H4 "gemini-2.0-flash" ["gemini-pro"] eq_refl).
Defined.

Lemma discovery_failure_is_terminal_witness :
  let env := world (server allMissing (Return forbiddenListing) "K") in
  let st := loaded "K" in
  let swept := sweep env (modelsToTry (validModelName st)) "page text" None st in
  fst swept
  = Return (Exhausted (Some (mkExn Error
      "models/gemini-pro is not found for API version v1beta")))
  /\ exists st2,
       callGeminiAPI env "page text" st
       = (Throw (mkExn Error
            ("Could not find any working Gemini model. Last error: " ++
             "models/gemini-pro is not found for API version v1beta")), st2).
Proof.
  cbv zeta. split; [reflexivity|].
  destruct (discovery_failure_is_terminal
              (world (server allMissing (Return forbiddenListing) "K"))
              "page text" (loaded "K") _ _ eq_refl)
    as (last & found & st2 & Hlast & _ & _ & Hbad & _ & Hnone & _).
  exists st2. inversion Hlast; subst last.
  apply Hnone. left. apply (Hbad forbiddenListing); reflexivity.
Defined.

Lemma malformed_candidate_type_error_witness :
  let env := world (server (answers blockedCandidate) (Return catalogue) "K") in
  let st := loaded "K" in
  field "content" [("finishReason", JStr "SAFETY")] = None
  /\ tryGenerateContent env "gemini-1.5-flash" "page text" st
     = (Throw (mkExn TypeError "Cannot read properties of undefined (reading 'parts')"),
        logRequest (generateRequest "gemini-1.5-flash" "K" "page text") st).
Proof.
  cbv zeta. split; [reflexivity|].
  apply (malformed_candidate_type_error
           (world (server (answers blockedCandidate) (Return catalogue) "K"))
           "gemini-1.5-flash" "page text" (loaded "K")
           [("candidates", JArr [JObj [("finishReason", JStr "SAFETY")]])]
           [("finishReason", JStr "SAFETY")] [] eq_refl eq_refl).
  reflexivity.
Defined.

End Runs.

(* ================================================================== *)
(** ** More about the extractor *)

Section NoiseFacts.
Import JsString Extractor Noise Quirks.

(** Induction on a tree, with the property known of every child. *)
Lemma Node_children_ind (P : Node -> Prop) :
  (forall data, P (Text data)) ->
  (forall data, P (Comment data)) ->
  (forall tag classes role children,
      Forall P children -> P (Element tag classes role children)) ->
  forall n, P n.
Proof.
  intros HT HC HE. fix IH 1. intros [data|data|tag classes role children].
  - apply HT.
  - apply HC.
  - apply HE. induction children as [|c children IHc]; constructor.
    + apply IH.
    + exact IHc.
Qed.

(** Removing descendants does not change what the element itself matches. *)
Lemma matches_removeAll (sel s : Selector) (n : Node) :
  matches s (removeAll sel n) = matches s n.
Proof. destruct n; reflexivity. Qed.

Lemma matches_removeAny (sels : list Selector) (s : Selector) (n : Node) :
  matches s (removeAny sels n) = matches s n.
Proof. destruct n; reflexivity. Qed.

Lemma isNoise_removeAll (sels : list Selector) (sel : Selector) (n : Node) :
  isNoise sels (removeAll sel n) = isNoise sels n.
Proof.
  unfold isNoise. induction sels as [|s sels IH]; simpl; [reflexivity|].
  now rewrite matches_removeAll, IH.
Qed.

Lemma removeAny_nil (n : Node) : removeAny [] n = n.
Proof.
  induction n as [data|data|tag classes role children IH] using Node_children_ind;
    try reflexivity.
  simpl. f_equal. induction IH as [|c children Hc _ IHl]; [reflexivity|].
  simpl. now rewrite Hc, IHl.
Qed.

(** One more selector in the loop is one more selector in the pass. *)
Lemma removeAny_removeAll (sel : Selector) (sels : list Selector) (n : Node) :
  removeAny sels (removeAll sel n) = removeAny (sel :: sels) n.
Proof.
  induction n as [data|data|tag classes role children IH] using Node_children_ind;
    try reflexivity.
  simpl. f_equal. induction IH as [|c children Hc _ IHl]; [reflexivity|].
  cbn [isNoise existsb]. destruct (matches sel c) eqn:Hm; simpl.
  - exact IHl.
  - rewrite isNoise_removeAll. fold (isNoise sels c).
    destruct (isNoise sels c); [exact IHl|].
    now rewrite Hc, IHl.
Qed.

Lemma removal_loop_is_removeAny (sels : list Selector) :
  forall n, fold_left (fun c sel => removeAll sel c) sels n = removeAny sels n.
Proof.
  induction sels as [|sel sels IH]; intros n; simpl.
  - symmetry. apply removeAny_nil.
  - rewrite IH. apply removeAny_removeAll.
Qed.

Lemma isNoise_rev (sels : list Selector) (n : Node) :
  isNoise (rev sels) n = isNoise sels n.
Proof.
  unfold isNoise. induction sels as [|s sels IH]; simpl; [reflexivity|].
  rewrite existsb_app, IH. simpl. rewrite orb_false_r. apply orb_comm.
Qed.

(** X1: removing the matches of one selector after another, as
    [getVisibleText] does, leaves the tree that a single pass dropping every
    descendant that matches any of the selectors leaves; so the order of
    [noiseSelectors] does not matter. *)
Theorem removal_loop_is_one_pass (sels : list Selector) (body : Node) :
  fold_left (fun c sel => removeAll sel c) sels body = removeAny sels body
  /\ fold_left (fun c sel => removeAll sel c) (rev sels) body
     = fold_left (fun c sel => removeAll sel c) sels body.
Proof.
  split; [apply removal_loop_is_removeAny|].
  rewrite !removal_loop_is_removeAny.
  pose proof (isNoise_rev sels) as Hn.
  induction body as [data|data|tag classes role children IH] using Node_children_ind;
    try reflexivity.
  simpl. f_equal. induction IH as [|c children Hc _ IHl]; [reflexivity|].
  rewrite Hn. destruct (isNoise sels c); [exact IHl|].
  now rewrite Hc, IHl.
Qed.

Lemma isNoise_false (sels : list Selector) (sel : Selector) (n : Node) :
  In sel sels -> isNoise sels n = false -> matches sel n = false.
Proof.
  unfold isNoise. intros Hin H.
  destruct (matches sel n) eqn:Hm; [|reflexivity].
  assert (existsb (fun s => matches s n) sels = true)
    by (apply existsb_exists; eauto).
  congruence.
Qed.

Lemma removeAny_has_no_match (sels : list Selector) (sel : Selector) (n : Node) :
  In sel sels -> hasMatch sel (removeAny sels n) = false.
Proof.
  intros Hin.
  induction n as [data|data|tag classes role children IH] using Node_children_ind;
    try reflexivity.
  simpl. induction IH as [|c children Hc _ IHl]; [reflexivity|].
  destruct (isNoise sels c) eqn:Hn; [exact IHl|].
  rewrite matches_removeAny, (isNoise_false _ _ _ Hin Hn), Hc, IHl. reflexivity.
Qed.

(** X2: in the tree whose text [getVisibleText] reads, no element matches
    any of the noise selectors: no script, style, noscript, iframe, svg, nav,
    footer, header or aside element, no element of class ad or ads, and none
    with the role alert, banner or navigation is left below the body. *)
Theorem no_noise_survives (body : Node) :
  forallb
    (fun sel =>
       negb (hasMatch sel
               (fold_left (fun c sel' => removeAll sel' c) noiseSelectors body)))
    noiseSelectors = true.
Proof.
  apply forallb_forall. intros sel Hin.
  rewrite removal_loop_is_removeAny, (removeAny_has_no_match _ _ _ Hin).
  reflexivity.
Qed.

Lemma removeAny_clean (sels : list Selector) (n : Node) :
  (forall sel, In sel sels -> hasMatch sel n = false) -> removeAny sels n = n.
Proof.
  induction n as [data|data|tag classes role children IH] using Node_children_ind;
    try reflexivity.
  intros Hclean. simpl. f_equal.
  assert (Hc : forall sel, In sel sels ->
               (fix any (l : list Node) : bool :=
                  match l with
                  | [] => false
                  | child :: rest => matches sel child || hasMatch sel child || any rest
                  end) children = false)
    by (intros sel Hin; exact (Hclean sel Hin)).
  clear Hclean.
  induction IH as [|c children Hx _ IHl]; [reflexivity|].
  assert (Hparts : forall sel, In sel sels ->
            matches sel c = false /\ hasMatch sel c = false /\
            (fix any (l : list Node) : bool :=
               match l with
               | [] => false
               | child :: rest => matches sel child || hasMatch sel child || any rest
               end) children = false).
  { intros sel Hin. specialize (Hc sel Hin). simpl in Hc.
    apply orb_false_iff in Hc as [Hc Hrest].
    apply orb_false_iff in Hc as [Hm Hh]. auto. }
  assert (Hn : isNoise sels c = false).
  { unfold isNoise. destruct (existsb (fun sel => matches sel c) sels) eqn:E;
      [|reflexivity].
    apply existsb_exists in E as (sel & Hin & Hm).
    destruct (Hparts sel Hin) as (Hm' & _). congruence. }
  rewrite Hn, Hx, IHl; [reflexivity | |].
  - intros sel Hin. apply (Hparts sel Hin).
  - intros sel Hin. apply (Hparts sel Hin).
Qed.

Lemma matchesIn_exact (sel : Selector) (n : Node) :
  matchesIn false sel n = matches sel n.
Proof. destruct n; reflexivity. Qed.

(** Outside quirks mode the extractor of [Quirks] is the extractor above. *)
Lemma removeAllIn_exact (sel : Selector) (n : Node) :
  removeAllIn false sel n = removeAll sel n.
Proof.
  induction n as [data|data|tag classes role children IH] using Node_children_ind;
    try reflexivity.
  simpl. f_equal. induction IH as [|c children Hc _ IHl]; [reflexivity|].
  rewrite matchesIn_exact, Hc, IHl. reflexivity.
Qed.

Lemma removal_loop_exact (sels : list Selector) :
  forall n, fold_left (fun c sel => removeAllIn false sel c) sels n
            = fold_left (fun c sel => removeAll sel c) sels n.
Proof.
  induction sels as [|sel sels IH]; intros n; simpl; [reflexivity|].
  now rewrite removeAllIn_exact, IH.
Qed.

(** Nothing to remove, nothing removed. *)
Lemma removeAllIn_clean (quirks : bool) (sel : Selector) (n : Node) :
  hasMatchIn quirks sel n = false -> removeAllIn quirks sel n = n.
Proof.
  induction n as [data|data|tag classes role children IH] using Node_children_ind;
    try reflexivity.
  simpl. intros Hclean. f_equal.
  induction IH as [|c children Hc _ IHl]; [reflexivity|].
  apply orb_false_iff in Hclean as [Hclean Hrest].
  apply orb_false_iff in Hclean as [Hm Hh].
  rewrite Hm, (Hc Hh), (IHl Hrest). reflexivity.
Qed.

Lemma removal_loop_clean (quirks : bool) (sels : list Selector) (n : Node) :
  forallb (fun sel => negb (hasMatchIn quirks sel n)) sels = true ->
  fold_left (fun c sel => removeAllIn quirks sel c) sels n = n.
Proof.
  induction sels as [|sel sels IH]; simpl; [reflexivity|].
  intros H. apply andb_true_iff in H as [Hsel H].
  apply negb_true_iff in Hsel.
  rewrite (removeAllIn_clean _ _ _ Hsel). exact (IH H).
Qed.

(** X3: a document in which nothing matches a noise selector is read as it
    is, in quirks mode (where [.ad] and [.ads] match class names whatever
    their case) and outside it: [getVisibleText] returns the collapsed and
    trimmed [textContent] of the body.  Outside quirks mode the extractor of
    either mode is [Extractor.getVisibleText]. *)
Theorem clean_document_is_read_whole (quirks : bool) (body : Node) :
  forallb (fun sel => negb (hasMatchIn quirks sel body)) noiseSelectors = true ->
  getVisibleTextIn quirks body = cleanWhitespace (textContent body)
  /\ getVisibleTextIn false body = getVisibleText body.
Proof.
  intros H. split.
  - unfold getVisibleTextIn, innerText. now rewrite removal_loop_clean.
  - unfold getVisibleTextIn, getVisibleText. now rewrite removal_loop_exact.
Qed.

Lemma visible_replaceRunsFrom (s : string) : forall b,
  visible (replaceRunsFrom isWhiteSpace b s) = visible s.
Proof.
  induction s as [|c r IH]; intros b; [reflexivity|].
  cbn [replaceRunsFrom visible]. destruct (isWhiteSpace c) eqn:Hc.
  - destruct b; [apply IH|]. cbn [visible].
    change (isWhiteSpace " ") with true. cbv iota. apply IH.
  - cbn [visible]. now rewrite Hc, IH.
Qed.

Lemma visible_trimStart (s : string) :
  visible (trimStart isWhiteSpace s) = visible s.
Proof.
  induction s as [|c r IH]; [reflexivity|].
  cbn [trimStart visible]. destruct (isWhiteSpace c) eqn:Hc; [exact IH|].
  cbn [visible]. now rewrite Hc.
Qed.

Lemma visible_trimEnd (s : string) :
  visible (trimEnd isWhiteSpace s) = visible s.
Proof.
  induction s as [|c r IH]; [reflexivity|].
  cbn [trimEnd visible]. rewrite <- IH.
  destruct (trimEnd isWhiteSpace r) as [|d t].
  - destruct (isWhiteSpace c) eqn:Hc; [reflexivity|].
    cbn [visible]. now rewrite Hc.
  - cbn [visible]. reflexivity.
Qed.

Lemma visible_cleanWhitespace (s : string) :
  visible (cleanWhitespace s) = visible s.
Proof.
  unfold cleanWhitespace, trim, replaceRuns.
  now rewrite visible_trimEnd, visible_trimStart, visible_replaceRunsFrom.
Qed.

Lemma visible_blank (s : string) : visible s = "" <-> blank s = true.
Proof.
  induction s as [|c r IH]; simpl; [tauto|].
  destruct (isWhiteSpace c); simpl; [exact IH|].
  split; discriminate.
Qed.

(** X4: [getVisibleText]'s white-space step returns the empty string exactly
    for a text made of white space only (the empty text among them). *)
Theorem blank_text_becomes_empty (text : string) :
  cleanWhitespace text = "" <-> blank text = true.
Proof.
  rewrite <- visible_blank, <- (visible_cleanWhitespace text).
  split; [now intros -> |].
  intros H.
  destruct (collapse_trim_shape isWhiteSpace text) as (_ & _ & Hs & _).
  fold (cleanWhitespace text) in Hs.
  destruct (cleanWhitespace text) as [|c r]; [reflexivity|].
  simpl in Hs, H. rewrite Hs in H. discriminate.
Qed.

Lemma strlen_replaceRunsFrom (s : string) : forall b,
  (strlen (replaceRunsFrom isWhiteSpace b s) <= strlen s)%N.
Proof.
  induction s as [|c r IH]; intros b; [reflexivity|].
  cbn [replaceRunsFrom]. destruct (isWhiteSpace c).
  - destruct b; cbn [strlen]; [specialize (IH true) | specialize (IH true)]; lia.
  - cbn [strlen]. specialize (IH false). lia.
Qed.

Lemma strlen_trimStart (s : string) :
  (strlen (trimStart isWhiteSpace s) <= strlen s)%N.
Proof.
  induction s as [|c r IH]; [reflexivity|].
  cbn [trimStart]. destruct (isWhiteSpace c); cbn [strlen]; lia.
Qed.

Lemma strlen_trimEnd (s : string) :
  (strlen (trimEnd isWhiteSpace s) <= strlen s)%N.
Proof.
  induction s as [|c r IH]; [reflexivity|].
  cbn [trimEnd]. destruct (trimEnd isWhiteSpace r) as [|d t].
  - destruct (isWhiteSpace c); cbn [strlen] in *; lia.
  - cbn [strlen] in *. lia.
Qed.

(** X5: collapsing and trimming never drops, changes or reorders a
    character that is not white space, and never makes the text longer. *)
Theorem visible_characters_survive (text : string) :
  visible (cleanWhitespace text) = visible text
  /\ (strlen (cleanWhitespace text) <= strlen text)%N.
Proof.
  split; [apply visible_cleanWhitespace|].
  unfold cleanWhitespace, trim, replaceRuns.
  pose proof (strlen_replaceRunsFrom text false).
  pose proof (strlen_trimStart (replaceRunsFrom isWhiteSpace false text)).
  pose proof (strlen_trimEnd
                (trimStart isWhiteSpace (replaceRunsFrom isWhiteSpace false text))).
  lia.
Qed.

End NoiseFacts.

(* ================================================================== *)
(** ** More about the generation call and the fallback *)

Section ClientFacts.
Import JsString Js Popup.
Variable env : Env.

(** The completion of a generation call whose response is not a success. *)
Lemma tryGenerateContent_failed (modelName text : string) (st : State)
      (resp : Response) :
  fetchReply env (List.length (requests st))
             (generateRequest modelName (API_KEY st) text) = Return resp ->
  ok resp = false ->
  tryGenerateContent env modelName text st
  = ((let? data := json resp in
      let? err := get (Some data) "error" in
      let? reported := getOpt err "message" in
      let? e := newError env (orElse reported (Some (JStr "Unknown API Error"))) in
      Throw e),
     logRequest (generateRequest modelName (API_KEY st) text) st).
Proof.
  intros H Hok. unfold tryGenerateContent. unfoldM. simpl. rewrite H. simpl.
  rewrite Hok. simpl. unfold bindO. cases; congruence.
Qed.

(** X6: when the response is not a success, the generation call throws an
    [Error] whose message is the [error.message] string of the body, and
    "Unknown API Error" when the body has no [error] or the error has no
    message; a body that is not JSON makes it throw the parser's exception
    instead.  "Unknown API Error" ends the sweep. *)
Theorem api_error_is_reported (modelName text : string) (st : State)
        (resp : Response) :
  fetchReply env (List.length (requests st))
             (generateRequest modelName (API_KEY st) text) = Return resp ->
  ok resp = false ->
  let st' := logRequest (generateRequest modelName (API_KEY st) text) st in
  (forall e, json resp = Throw e ->
     tryGenerateContent env modelName text st = (Throw e, st'))
  /\ (forall fields details msg,
        json resp = Return (JObj fields) ->
        field "error" fields = Some (JObj details) ->
        field "message" details = Some (JStr msg) ->
        msg <> "" ->
        tryGenerateContent env modelName text st = (Throw (mkExn Error msg), st'))
  /\ (forall fields,
        json resp = Return (JObj fields) ->
        field "error" fields = None ->
        tryGenerateContent env modelName text st
        = (Throw (mkExn Error "Unknown API Error"), st'))
  /\ (forall fields details,
        json resp = Return (JObj fields) ->
        field "error" fields = Some (JObj details) ->
        field "message" details = None ->
        tryGenerateContent env modelName text st
        = (Throw (mkExn Error "Unknown API Error"), st'))
  /\ profound (mkExn Error "Unknown API Error") = true.
Proof.
  intros Hreply Hok. cbv zeta.
  rewrite (tryGenerateContent_failed _ _ _ _ Hreply Hok).
  repeat split.
  - intros e ->. reflexivity.
  - intros fields details msg -> Herr Hmsg Hne. simpl.
    rewrite Herr. simpl. unfold getOpt. simpl. rewrite Hmsg. simpl.
    unfold orElse. simpl. apply String.eqb_neq in Hne. now rewrite Hne.
  - intros fields -> Herr. simpl. now rewrite Herr.
  - intros fields details -> Herr Hmsg. simpl.
    rewrite Herr. simpl. unfold getOpt. simpl. now rewrite Hmsg.
Qed.

(** X7: the summary is the [text] of the first part of the first candidate,
    whatever other candidates and parts the response holds. *)
Theorem first_candidate_text_is_returned
        (modelName text : string) (st : State) (fields : list (string * JSON))
        (first content part : list (string * JSON)) (others parts : list JSON)
        (summary : JSON) :
  fetchReply env (List.length (requests st))
             (generateRequest modelName (API_KEY st) text)
    = Return (mkResponse true (Return (JObj fields))) ->
  field "candidates" fields = Some (JArr (JObj first :: others)) ->
  field "content" first = Some (JObj content) ->
  field "parts" content = Some (JArr (JObj part :: parts)) ->
  field "text" part = Some summary ->
  tryGenerateContent env modelName text st
  = (Return (Some summary),
     logRequest (generateRequest modelName (API_KEY st) text) st).
Proof.
  intros Hreply Hcand Hcontent Hparts Htext.
  rewrite (tryGenerateContent_ok _ _ _ _ _ Hreply). simpl.
  rewrite Hcand. simpl. rewrite Hcontent. simpl. rewrite Hparts. simpl.
  now rewrite Htext.
Qed.

(** What the sweep has sent when it runs out of candidates. *)
Lemma sweep_exhausted_requests (models : list string) (text : string) :
  forall (lastError lastError' : option Exn) (st st' : State),
  sweep env models text lastError st = (Return (Exhausted lastError'), st') ->
  requests st'
  = (requests st ++ map (fun m => generateRequest m (API_KEY st) text) models)%list
  /\ API_KEY st' = API_KEY st.
Proof.
  induction models as [|m models IH]; simpl; intros le le' st st' H.
  - unfold ret in H. inversion H; subst. now rewrite app_nil_r.
  - pose proof (tryGenerateContent_state env m text st) as Hst.
    destruct (tryGenerateContent env m text st) as [[v|e] s]; [discriminate|].
    destruct (profound e); [discriminate|].
    simpl in Hst. destruct (IH _ _ _ _ H) as [Hr Hk]. subst s. simpl in *.
    rewrite Hr, Hk, <- app_assoc. auto.
Qed.

(** X8: the call returns the summary of the first candidate that succeeds:
    when the candidates before it failed with a retryable message, the
    requests of the call are the generation requests for those candidates and
    for it, in order, and the listing is never asked. *)
Theorem first_success_is_returned
        (before rest : list string) (model text : string)
        (st st1 st2 : State) (earlier : option Exn) (v : Val) :
  modelsToTry (validModelName st) = (before ++ model :: rest)%list ->
  sweep env before text None st = (Return (Exhausted earlier), st1) ->
  tryGenerateContent env model text st1 = (Return v, st2) ->
  callGeminiAPI env text st = (Return v, st2)
  /\ requests st2
     = (requests st ++
        map (fun m => generateRequest m (API_KEY st) text) (before ++ [model]))%list.
Proof.
  intros Hlist Hbefore Hgen. split.
  - apply callGeminiAPI_sweep_returns.
    rewrite Hlist, sweep_app, Hbefore. simpl. now rewrite Hgen.
  - destruct (sweep_exhausted_requests _ _ _ _ _ _ Hbefore) as [Hr Hk].
    pose proof (tryGenerateContent_requests env model text st1) as Hg.
    rewrite Hgen in Hg. simpl in Hg.
    rewrite Hg, Hr, Hk, map_app, <- app_assoc. reflexivity.
Qed.

(** X9: when every candidate has failed with a retryable message and the
    first discovered model answers, the call returns that answer and the
    name of that model is in [validModelName] afterwards; the candidates of
    the next call are that model alone when the name is not empty, and the
    static list again when it is empty. *)
Theorem discovered_success_is_cached
        (text : string) (st st1 st2 st3 : State) (lastError : option Exn)
        (fallbackModel : string) (others : list string) (v : Val) :
  sweep env (modelsToTry (validModelName st)) text None st
    = (Return (Exhausted lastError), st1) ->
  checkModels env (snd (setStatus "Finding compatible model..." warning st1))
    = (Return (Some (fallbackModel :: others)), st2) ->
  tryGenerateContent env fallbackModel text st2 = (Return v, st3) ->
  callGeminiAPI env text st = (Return v, setValidModelName (Some fallbackModel) st3)
  /\ validModelName (snd (callGeminiAPI env text st)) = Some fallbackModel
  /\ (fallbackModel <> "" ->
      modelsToTry (validModelName (snd (callGeminiAPI env text st)))
      = [fallbackModel])
  /\ (fallbackModel = "" ->
      modelsToTry (validModelName (snd (callGeminiAPI env text st)))
      = ["gemini-1.5-flash"; "gemini-1.5-flash-latest"; "gemini-pro"]).
Proof.
  intros Hsweep Hcheck Hgen.
  assert (Hcall : callGeminiAPI env text st
                  = (Return v, setValidModelName (Some fallbackModel) st3)).
  { rewrite (callGeminiAPI_sweep_exhausted env _ _ _ _ Hsweep).
    unfold discover. unfold Popup.bind at 1.
    destruct (setStatus "Finding compatible model..." warning st1) as [[[]|e] s] eqn:Hs;
      [|discriminate Hs].
    simpl in Hcheck. unfold Popup.bind. rewrite Hcheck, Hgen. reflexivity. }
  rewrite Hcall. simpl. repeat split.
  - intros Hne. apply String.eqb_neq in Hne. now rewrite Hne.
  - intros ->. reflexivity.
Qed.

(** The requests of a sweep: at most one per candidate, each the generation
    request of a candidate, and the key stays. *)
Lemma sweep_requests (models : list string) (text : string) :
  forall (lastError : option Exn) (st : State),
  exists sent,
    requests (snd (sweep env models text lastError st)) = (requests st ++ sent)%list
    /\ (List.length sent <= List.length models)%nat
    /\ (models <> [] -> (1 <= List.length sent)%nat)
    /\ Forall (fun r => exists m, r = generateRequest m (API_KEY st) text) sent
    /\ API_KEY (snd (sweep env models text lastError st)) = API_KEY st.
Proof.
  induction models as [|m models IH]; intros le st; simpl.
  - exists []. rewrite app_nil_r. repeat split; auto. congruence.
  - pose proof (tryGenerateContent_state env m text st) as Hst.
    destruct (tryGenerateContent env m text st) as [[v|e] s]; simpl in Hst; subst s.
    + exists [generateRequest m (API_KEY st) text]. simpl.
      repeat split; eauto; lia.
    + destruct (profound e).
      * exists [generateRequest m (API_KEY st) text]. simpl.
        repeat split; eauto; lia.
      * destruct (IH (Some e) (logRequest (generateRequest m (API_KEY st) text) st))
          as (sent & Hr & Hlen & _ & Hall & Hk).
        exists (generateRequest m (API_KEY st) text :: sent). simpl in *.
        rewrite Hr, <- app_assoc. repeat split; eauto; lia.
Qed.

(** The requests of the discovery step. *)
Lemma discover_sends (text : string) (lastError : option Exn) (st : State) :
  exists sent,
    requests (snd (discover env text lastError st)) = (requests st ++ sent)%list
    /\ (List.length sent <= 2)%nat
    /\ Forall (fun r => r = listRequest (API_KEY st)
                        \/ exists m, r = generateRequest m (API_KEY st) text) sent
    /\ API_KEY (snd (discover env text lastError st)) = API_KEY st.
Proof.
  unfold discover, setStatus. unfoldM. simpl.
  match goal with
  | |- context [checkModels env ?s] =>
      destruct (String.eqb_spec (API_KEY s) "") as [Hkey | Hkey];
      [ rewrite (checkModels_without_key env s Hkey)
      | pose proof (checkModels_state env s Hkey) as Hc;
        destruct (checkModels env s) as [[found|e] s2]; simpl in Hc; subst s2 ]
  end; simpl in *.
  - exists []. rewrite app_nil_r. repeat split; auto.
  - destruct found as [[|m others]|]; simpl.
    + exists [listRequest (API_KEY st)]. repeat split; auto.
    + match goal with
      | |- context [tryGenerateContent env m text ?s] =>
          pose proof (tryGenerateContent_state env m text s) as Hg;
          destruct (tryGenerateContent env m text s) as [[v|e] s3];
          simpl in Hg; subst s3
      end; simpl;
        exists [listRequest (API_KEY st); generateRequest m (API_KEY st) text];
        rewrite <- app_assoc; repeat split; eauto;
        (constructor; [now left | constructor; [right; eauto | constructor]]).
    + exists [listRequest (API_KEY st)]. repeat split; auto.
  - exists [listRequest (API_KEY st)]. repeat split; auto.
Qed.

Lemma modelsToTry_length (cached : option string) :
  (List.length (modelsToTry cached) <= 3)%nat
  /\ (forall m, cached = Some m -> m <> "" ->
                List.length (modelsToTry cached) = 1%nat).
Proof.
  split.
  - destruct cached as [m|]; simpl; [destruct (String.eqb m "")|]; simpl; lia.
  - intros m -> Hne. simpl. apply String.eqb_neq in Hne. now rewrite Hne.
Qed.

(** X10: a call sends at least one request and at most five (the three
    static candidates, the listing, the discovered model), and at most three
    when a model is cached; each of them is the listing request for the key
    or a generation request that carries the key and the same prompt and
    truncated text; and the call leaves the key as it is. *)
Theorem call_request_budget (text : string) (st : State) :
  exists sent,
    requests (snd (callGeminiAPI env text st)) = (requests st ++ sent)%list
    /\ (1 <= List.length sent <= 5)%nat
    /\ (forall m, validModelName st = Some m -> m <> "" ->
                  (List.length sent <= 3)%nat)
    /\ Forall (fun r => r = listRequest (API_KEY st)
                        \/ exists m, r = generateRequest m (API_KEY st) text) sent
    /\ API_KEY (snd (callGeminiAPI env text st)) = API_KEY st.
Proof.
  destruct (sweep_requests (modelsToTry (validModelName st)) text None st)
    as (sent & Hr & Hlen & Hmin & Hall & Hk).
  specialize (Hmin (modelsToTry_not_empty (validModelName st))).
  destruct (modelsToTry_length (validModelName st)) as [H3 H1].
  assert (Hgen : Forall (fun r => r = listRequest (API_KEY st)
                        \/ exists m, r = generateRequest m (API_KEY st) text) sent).
  { eapply Forall_impl; [|exact Hall]. simpl. auto. }
  unfold callGeminiAPI. unfoldM. simpl.
  destruct (sweep env (modelsToTry (validModelName st)) text None st)
    as [[[v|le]|e] s1]; simpl in *.
  - exists sent. repeat split; auto; lia.
  - destruct (discover_sends text le s1) as (more & Hr2 & Hlen2 & Hall2 & Hk2).
    exists (sent ++ more)%list. rewrite Hr2, Hr, app_assoc, length_app.
    rewrite Hk in Hall2. repeat split; auto; try lia.
    + intros m Hm Hne. specialize (H1 m Hm Hne). lia.
    + apply Forall_app. auto.
    + congruence.
  - exists sent. repeat split; auto; lia.
Qed.

(** X11: [checkModels] touches nothing of the popup but its logs: with an
    empty key it shows the alert and sends nothing, with a key it sends the
    listing request alone and shows no alert; the key, the cached model and
    the page are as before. *)
Theorem checkModels_effects (st : State) :
  let st' := snd (checkModels env st) in
  API_KEY st' = API_KEY st
  /\ validModelName st' = validModelName st
  /\ ui st' = ui st
  /\ (if String.eqb (API_KEY st) "" then
        fst (checkModels env st) = Return None
        /\ requests st' = requests st
        /\ events st' = (events st ++ [Alert "Please enter an API Key first."])%list
      else
        requests st' = (requests st ++ [listRequest (API_KEY st)])%list
        /\ events st' = events st).
Proof.
  cbv zeta. destruct (String.eqb_spec (API_KEY st) "") as [Hkey | Hkey].
  - rewrite (checkModels_without_key env st Hkey). simpl. auto 8.
  - rewrite (checkModels_state env st Hkey). simpl. auto 8.
Qed.

End ClientFacts.

(* ================================================================== *)
(** ** More about the summarize handler *)

Section HandlerFacts.
Import JsString Js Extractor Popup.
Variable env : Env.

Lemma sweep_events (models : list string) (text : string) :
  forall (lastError : option Exn) (st : State),
  events (snd (sweep env models text lastError st)) = events st
  /\ API_KEY (snd (sweep env models text lastError st)) = API_KEY st.
Proof.
  induction models as [|m models IH]; intros le st; simpl; [auto|].
  pose proof (tryGenerateContent_state env m text st) as Hst.
  destruct (tryGenerateContent env m text st) as [[v|e] s]; simpl in Hst; subst s;
    [auto|].
  destruct (profound e); [auto|].
  destruct (IH (Some e) (logRequest (generateRequest m (API_KEY st) text) st)).
  simpl in *. split; congruence.
Qed.

(** With a key, a call has no effect outside but its requests. *)
Lemma callGeminiAPI_events (text : string) (st : State) :
  API_KEY st <> "" ->
  events (snd (callGeminiAPI env text st)) = events st.
Proof.
  intros Hkey. unfold callGeminiAPI. unfoldM. simpl.
  destruct (sweep_events (modelsToTry (validModelName st)) text None st) as [He Hk].
  destruct (sweep env (modelsToTry (validModelName st)) text None st)
    as [[[v|le]|e] s1]; simpl in *; try exact He.
  rewrite <- He. rewrite <- Hk in Hkey. clear He Hk.
  unfold discover, setStatus. unfoldM. simpl.
  match goal with
  | |- context [checkModels env ?s] =>
      pose proof (checkModels_state env s Hkey) as Hc;
      destruct (checkModels env s) as [[found|e] s2]; simpl in Hc; subst s2
  end; simpl; [|reflexivity].
  destruct found as [[|m others]|]; simpl; try reflexivity.
  match goal with
  | |- context [tryGenerateContent env m text ?s] =>
      pose proof (tryGenerateContent_state env m text s) as Hg;
      destruct (tryGenerateContent env m text s) as [[v|e] s3];
      simpl in Hg; subst s3
  end; reflexivity.
Qed.

(** How a run of the handler with a key ends. *)
Lemma handleSummarize_run (st : State) :
  API_KEY st <> "" ->
  let st' := snd (handleSummarize env st) in
  fst (handleSummarize env st) = Return tt
  /\ summarizeDisabled (ui st') = false
  /\ loaderHidden (ui st') = true
  /\ exists added,
       events st' = (events st ++ added)%list
       /\ ((exists earlier page summary,
              added = (earlier ++ [OpenWindow (title page) (href page)
                                     (getVisibleText (body page)) summary])%list
              /\ statusText (ui st') = "Done! Summary ready."
              /\ statusColor (ui st') = "#10b981"
              /\ (copyClipboardChecked env = true -> clipboardReply env = None))
           \/ (exists msg,
                 statusText (ui st') = "Error: " ++ msg
                 /\ statusColor (ui st') = "#dc2626"
                 /\ forall t u c s, ~ In (OpenWindow t u c s) added)).
Proof.
  intros Hkey. cbv zeta.
  unfold handleSummarize, setStatus, setLoading, toggleSettings, showSuccess,
    saveToFile, openSummaryWindow.
  unfoldM. simpl.
  assert (Hk := Hkey). apply String.eqb_neq in Hk. rewrite Hk. simpl.
  assert (Hno : forall (l : list Event) t u c s,
             (forall x, In x l -> match x with OpenWindow _ _ _ _ => False | _ => True end) ->
             ~ In (OpenWindow t u c s) l).
  { intros l t u c s Hl Hin. exact (Hl _ Hin). }
  destruct (activeTab env) as [[tabId|]|e]; simpl.
  2,3: repeat split; exists []; rewrite app_nil_r; split; [reflexivity|];
       right; eexists; repeat split; intros t u c s [].
  destruct (pageReply env) as [[page|]|e]; simpl.
  2,3: repeat split; eexists; rewrite <- app_assoc; split; [reflexivity|];
       right; eexists; repeat split; intros t u c s; apply Hno;
       simpl; intros x [<- | [<- | []]]; exact I.
  destruct (String.eqb (getVisibleText (body page)) "") eqn:Hcontent; simpl.
  { repeat split; eexists; rewrite <- app_assoc; split; [reflexivity|].
    right; eexists; repeat split; intros t u c s; apply Hno;
      simpl; intros x [<- | [<- | []]]; exact I. }
  match goal with
  | |- context [callGeminiAPI env ?t ?s] =>
      pose proof (callGeminiAPI_events t s Hkey) as Hev;
      destruct (callGeminiAPI env t s) as [[summary|e] s2]
  end; simpl in Hev; simpl.
  2: { repeat split; eexists; rewrite Hev, <- app_assoc; split; [reflexivity|].
       right; eexists; repeat split; intros t u c s; apply Hno;
         simpl; intros x [<- | [<- | []]]; exact I. }
  destruct (saveFileChecked env); simpl;
    [destruct (toString env summary) as [text|e]; simpl|];
    destruct (copyClipboardChecked env); simpl;
    try destruct (clipboardReply env) as [e'|]; simpl;
    try destruct summary as [[| | |s | |]|]; simpl;
    repeat split;
    eexists; rewrite Hev, <- ?app_assoc; simpl;
    (split; [reflexivity|]);
    first
      [ right; eexists; repeat split; intros t u c s0; apply Hno;
        simpl; intros x Hx;
        repeat (destruct Hx as [<- | Hx]; [exact I|]); destruct Hx
      | left;
        first [ solve [exists [ExecuteScript tabId; SendMessage tabId], page, s;
                       repeat split; intros; congruence]
              | solve [exists [ExecuteScript tabId; SendMessage tabId;
                               SaveStarted (href page) (getVisibleText (body page)) text],
                         page, s;
                       repeat split; intros; congruence]
              | solve [exists [ExecuteScript tabId; SendMessage tabId;
                               ClipboardWrite (Some (JStr s))], page, s;
                       repeat split; intros; congruence]
              | solve [exists [ExecuteScript tabId; SendMessage tabId;
                               SaveStarted (href page) (getVisibleText (body page)) text;
                               ClipboardWrite (Some (JStr s))], page, s;
                       repeat split; intros; congruence] ] ].
Qed.

(** X14: the summarize handler never lets an exception out: whatever the
    tab API, the content script, the network and the clipboard do, it
    completes normally, and a run with a key always ends with the button
    enabled again and the loader hidden. *)
Theorem handler_never_throws (st : State) :
  fst (handleSummarize env st) = Return tt
  /\ (API_KEY st <> "" ->
      summarizeDisabled (ui (snd (handleSummarize env st))) = false
      /\ loaderHidden (ui (snd (handleSummarize env st))) = true).
Proof.
  split.
  - destruct (String.eqb_spec (API_KEY st) "") as [Hkey | Hkey].
    + unfold handleSummarize, setStatus, toggleSettings. unfoldM. simpl.
      now rewrite Hkey.
    + apply (handleSummarize_run st Hkey).
  - intros Hkey. destruct (handleSummarize_run st Hkey) as (_ & Hd & Hl & _). auto.
Qed.

(** X15: a run of the handler ends in one of three ways: without a key, with
    the missing-key error; with "Done! Summary ready." right after it has
    opened the summary window on a summary that is a string; or with
    "Error: " and a message in the error colours, and then it has opened no
    window. *)
Theorem handler_ends_in_done_or_error (st : State) :
  let st' := snd (handleSummarize env st) in
  (API_KEY st = ""
   /\ statusText (ui st') = "Missing API Key. Click 'Settings' to add it.")
  \/ (exists earlier page summary,
        events st'
        = (events st ++ earlier ++
           [OpenWindow (title page) (href page) (getVisibleText (body page)) summary])%list
        /\ statusText (ui st') = "Done! Summary ready."
        /\ statusColor (ui st') = "#10b981")
  \/ (exists msg added,
        events st' = (events st ++ added)%list
        /\ (forall t u c s, ~ In (OpenWindow t u c s) added)
        /\ statusText (ui st') = "Error: " ++ msg
        /\ statusColor (ui st') = "#dc2626"
        /\ statusBackground (ui st') = "#fee2e2").
Proof.
  cbv zeta. destruct (String.eqb_spec (API_KEY st) "") as [Hkey | Hkey].
  - left. split; [exact Hkey|].
    unfold handleSummarize, setStatus, toggleSettings. unfoldM. simpl.
    rewrite Hkey. simpl. destruct (settingsHidden (ui st)); reflexivity.
  - right.
    destruct (handleSummarize_run st Hkey)
      as (_ & _ & _ & added & Hev & [(earlier & page & summary & -> & Ht & Hc & _)
                                    | (msg & Ht & Hc & Hno)]).
    + left. exists earlier, page, summary. auto.
    + right. exists msg, added. repeat split; auto.
      revert Ht Hc. unfold handleSummarize, setStatus, setLoading, toggleSettings,
        showSuccess, saveToFile, openSummaryWindow.
      unfoldM. simpl. apply String.eqb_neq in Hkey. rewrite Hkey. simpl.
      cases; simpl; intros; try reflexivity; discriminate.
Qed.

(** X16: with a key, a run that finds no active tab, gets no answer from the
    content script, or gets an empty text from it, sends no request, leaves
    the cached model alone and shows the matching error. *)
Theorem nothing_to_read_sends_nothing (st : State) :
  API_KEY st <> "" ->
  let st' := snd (handleSummarize env st) in
  (activeTab env = Return None ->
     requests st' = requests st /\ validModelName st' = validModelName st
     /\ statusText (ui st') = "Error: No active tab found")
  /\ (forall e, activeTab env = Throw e ->
        requests st' = requests st /\ validModelName st' = validModelName st
        /\ statusText (ui st') = "Error: " ++ message e)
  /\ (forall tabId e, activeTab env = Return (Some tabId) ->
        pageReply env = Throw e ->
        requests st' = requests st /\ validModelName st' = validModelName st
        /\ statusText (ui st') = "Error: " ++ message e)
  /\ (forall tabId, activeTab env = Return (Some tabId) ->
        pageReply env = Return None ->
        requests st' = requests st /\ validModelName st' = validModelName st
        /\ statusText (ui st') = "Error: Could not extract content from page.")
  /\ (forall tabId page, activeTab env = Return (Some tabId) ->
        pageReply env = Return (Some page) ->
        getVisibleText (body page) = "" ->
        requests st' = requests st /\ validModelName st' = validModelName st
        /\ statusText (ui st') = "Error: Could not extract content from page.").
Proof.
  intros Hkey. cbv zeta. apply String.eqb_neq in Hkey.
  unfold handleSummarize, setStatus, setLoading. unfoldM. simpl.
  rewrite Hkey. simpl. repeat split.
  all: repeat match goal with
              | H : activeTab env = _ |- _ => rewrite H; clear H; simpl
              | H : pageReply env = _ |- _ => rewrite H; clear H; simpl
              | H : getVisibleText _ = _ |- _ => rewrite H; clear H; simpl
              | |- _ => intro
              end; reflexivity.
Qed.

(** X17: when the copy option is on and the clipboard refuses the text, a
    run with a key ends with an error status and never opens the summary
    window. *)
Theorem clipboard_failure_blocks_window (st : State) (e : Exn) :
  API_KEY st <> "" ->
  copyClipboardChecked env = true ->
  clipboardReply env = Some e ->
  exists msg added,
    events (snd (handleSummarize env st)) = (events st ++ added)%list
    /\ (forall t u c s, ~ In (OpenWindow t u c s) added)
    /\ statusText (ui (snd (handleSummarize env st))) = "Error: " ++ msg
    /\ statusColor (ui (snd (handleSummarize env st))) = "#dc2626".
Proof.
  intros Hkey Hcopy Hclip.
  destruct (handleSummarize_run st Hkey)
    as (_ & _ & _ & added & Hev & [(earlier & page & summary & _ & _ & _ & Hnone)
                                  | (msg & Ht & Hc & Hno)]).
  - specialize (Hnone Hcopy). congruence.
  - exists msg, added. auto.
Qed.

(** X18: [toggleSettings] flips the settings panel and shows the main
    content exactly when it hides the settings, without touching the status
    line, the key or the cache; when one of the two panels was showing,
    toggling twice gives the page back. *)
Theorem toggle_swaps_panels (st : State) :
  let once := snd (toggleSettings st) in
  let twice := snd (toggleSettings once) in
  settingsHidden (ui once) = negb (settingsHidden (ui st))
  /\ mainHidden (ui once) = settingsHidden (ui st)
  /\ statusText (ui once) = statusText (ui st)
  /\ API_KEY once = API_KEY st
  /\ validModelName once = validModelName st
  /\ requests once = requests st
  /\ (mainHidden (ui st) = negb (settingsHidden (ui st)) -> ui twice = ui st).
Proof.
  cbv zeta. unfold toggleSettings, modify, setUI. simpl.
  destruct (ui st) as [t b c d l sh mh]. simpl.
  destruct sh; simpl; repeat split; auto; intros ->; reflexivity.
Qed.

End HandlerFacts.

(* ================================================================== *)
(** ** The settings panel and the summary page *)

Section SettingsFacts.
Import JsString Js Extractor Popup Noise Settings Render.
Variable browser : Browser.

Lemma trim_blank (s : string) : trim isWhiteSpace s = "" <-> blank s = true.
Proof.
  rewrite <- visible_blank.
  assert (Hv : visible (trim isWhiteSpace s) = visible s)
    by (unfold trim; now rewrite visible_trimEnd, visible_trimStart).
  split; [intros H; now rewrite <- Hv, H|].
  intros H. rewrite <- Hv in H.
  destruct (trimStart_shape isWhiteSpace s) as (Hs & _).
  destruct (trimEnd_shape isWhiteSpace (trimStart isWhiteSpace s)) as (_ & Hs' & _).
  specialize (Hs' Hs). fold (trim isWhiteSpace s) in Hs'.
  destruct (trim isWhiteSpace s) as [|c r]; [reflexivity|].
  simpl in Hs', H. rewrite Hs' in H. discriminate.
Qed.

(** X19: a key field that is empty or holds only white space is not saved:
    [saveApiKey] writes nothing to the storage and leaves the key of the
    session, the button and the page as they are. *)
Theorem blank_key_is_not_saved (p : Panel) :
  blank (apiKeyInput p) = true ->
  saveApiKey browser p = (Return tt, p).
Proof.
  intros H. apply trim_blank in H. unfold saveApiKey. now rewrite H.
Qed.

(** X20: a saved key comes back: when the storage accepts the write,
    [saveApiKey] stores the trimmed text of the field and makes it the key of
    the session, and [loadApiKey] in a popup opened on that storage sets the
    same key and shows it in the field; the key has no white space at either
    end. *)
Theorem saved_key_is_loaded_back (p : Panel) :
  blank (apiKeyInput p) = false ->
  storageSet browser = None ->
  storageGet browser = None ->
  let key := trim isWhiteSpace (apiKeyInput p) in
  let saved := snd (saveApiKey browser p) in
  fst (saveApiKey browser p) = Return tt
  /\ stored saved = Some key
  /\ API_KEY (popup saved) = key
  /\ validModelName (popup saved) = validModelName (popup p)
  /\ saveKeyText saved = "Saved!"
  /\ startsWithSpace isWhiteSpace key = false
  /\ endsWithSpace isWhiteSpace key = false
  /\ (forall page input label,
        let reopened := snd (loadApiKey browser (opened page input label (stored saved))) in
        API_KEY (popup reopened) = key /\ apiKeyInput reopened = key).
Proof.
  intros Hblank Hset Hget. cbv zeta.
  assert (Hkey : String.eqb (trim isWhiteSpace (apiKeyInput p)) "" = false).
  { apply String.eqb_neq. intros H. apply trim_blank in H. congruence. }
  unfold saveApiKey. rewrite Hkey, Hset. simpl.
  destruct (trimStart_shape isWhiteSpace (apiKeyInput p)) as (Hs & _).
  destruct (trimEnd_shape isWhiteSpace (trimStart isWhiteSpace (apiKeyInput p)))
    as (He & Hs' & _).
  repeat split; auto.
  all: unfold loadApiKey, opened; rewrite Hget; simpl; now rewrite Hkey.
Qed.

(** X22: the feedback of a save is undone by its timer: when the callback
    runs, the button shows the label it had before the save with no colour
    of its own, the settings panel is toggled, the status line says
    "Ready to summarize", and the saved key is still the key of the
    session. *)
Theorem save_feedback_is_undone (p : Panel) :
  blank (apiKeyInput p) = false ->
  storageSet browser = None ->
  timers p = [] ->
  let later := timerFires (snd (saveApiKey browser p)) in
  saveKeyText later = saveKeyText p
  /\ saveKeyBackground later = ""
  /\ timers later = []
  /\ settingsHidden (ui (popup later)) = negb (settingsHidden (ui (popup p)))
  /\ statusText (ui (popup later)) = "Ready to summarize"
  /\ API_KEY (popup later) = trim isWhiteSpace (apiKeyInput p)
  /\ stored later = Some (trim isWhiteSpace (apiKeyInput p)).
Proof.
  intros Hblank Hset Htimers. cbv zeta.
  assert (Hkey : String.eqb (trim isWhiteSpace (apiKeyInput p)) "" = false).
  { apply String.eqb_neq. intros H. apply trim_blank in H. congruence. }
  unfold saveApiKey, timerFires. rewrite Hkey, Hset. simpl. rewrite Htimers. simpl.
  destruct (settingsHidden (ui (popup p))); repeat split.
Qed.

(** X23: two saves before the first timer runs leave the button reading
    "Saved!" for good: the second save captures the feedback label as the
    label to restore, so after both callbacks have run the label is still
    "Saved!", and the settings panel, toggled twice, is where it was. *)
Theorem double_save_keeps_saved_label (p : Panel) :
  blank (apiKeyInput p) = false ->
  storageSet browser = None ->
  timers p = [] ->
  let twice := snd (saveApiKey browser (snd (saveApiKey browser p))) in
  let later := timerFires (timerFires twice) in
  saveKeyText later = "Saved!"
  /\ timers later = []
  /\ settingsHidden (ui (popup later)) = settingsHidden (ui (popup p)).
Proof.
  intros Hblank Hset Htimers. cbv zeta.
  assert (Hkey : String.eqb (trim isWhiteSpace (apiKeyInput p)) "" = false).
  { apply String.eqb_neq. intros H. apply trim_blank in H. congruence. }
  unfold saveApiKey, timerFires. rewrite Hkey, Hset. simpl.
  rewrite Hkey. simpl. rewrite Htimers. simpl.
  destruct (settingsHidden (ui (popup p))); repeat split.
Qed.

Lemma occurs_replaceEvery_other (c d : ascii) (rep s : string) :
  occurs d rep = false ->
  occurs d (replaceEvery c rep s) = (negb (Ascii.eqb c d) && occurs d s)%bool.
Proof.
  intros Hrep. induction s as [|x r IH]; simpl.
  - now rewrite andb_false_r.
  - destruct (Ascii.eqb_spec x c) as [-> | Hxc].
    + assert (Happ : forall a b, occurs d (a ++ b) = occurs d a || occurs d b).
      { intros a b. induction a; simpl; [reflexivity|].
        now rewrite IHa, orb_assoc. }
      rewrite Happ, Hrep, IH. simpl.
      destruct (Ascii.eqb c d); reflexivity.
    + simpl. rewrite IH.
      destruct (Ascii.eqb_spec x d) as [-> | Hxd]; simpl.
      * apply Ascii.eqb_neq in Hxc. rewrite Ascii.eqb_sym in Hxc.
        now rewrite Hxc.
      * reflexivity.
Qed.

Lemma replaceEvery_absent (c : ascii) (rep s : string) :
  occurs c s = false -> replaceEvery c rep s = s.
Proof.
  induction s as [|x r IH]; simpl; [reflexivity|].
  intros H. apply orb_false_iff in H as [Hx Hr].
  now rewrite Hx, IH.
Qed.

(** X24: the page content shown on the summary page holds no [<] and no [>]
    (each has become its entity), and a content without angle brackets is
    shown as it is. *)
Theorem safeOriginal_has_no_angle_brackets (originalContent : string) :
  occurs "<" (safeOriginal originalContent) = false
  /\ occurs ">" (safeOriginal originalContent) = false
  /\ (occurs "<" originalContent = false ->
      occurs ">" originalContent = false ->
      safeOriginal originalContent = originalContent).
Proof.
  unfold safeOriginal. repeat split.
  - rewrite occurs_replaceEvery_other by reflexivity.
    rewrite occurs_replaceEvery_other by reflexivity. reflexivity.
  - rewrite occurs_replaceEvery_other by reflexivity. reflexivity.
  - intros Hlt Hgt. rewrite (replaceEvery_absent "<") by exact Hlt.
    now apply replaceEvery_absent.
Qed.

End SettingsFacts.

Section FirstRunFacts.
Import JsString Js Extractor Popup Settings.

(** X21: a popup opened on a storage without a key keeps the empty key and
    asks for one in the status line; a click on the summarize button then
    shows the missing-key error, opens the settings and sends no request. *)
Theorem first_run_asks_for_key (browser : Browser) (env : Env)
        (page : UI) (input label : string) :
  storageGet browser = None ->
  let start := snd (loadApiKey browser (opened page input label None)) in
  let clicked := snd (handleSummarize env (popup start)) in
  fst (loadApiKey browser (opened page input label None)) = Return tt
  /\ API_KEY (popup start) = ""
  /\ statusText (ui (popup start)) = "Please set your Gemini API Key in settings."
  /\ statusColor (ui (popup start)) = "#d97706"
  /\ requests clicked = []
  /\ events clicked = []
  /\ statusText (ui clicked) = "Missing API Key. Click 'Settings' to add it."
  /\ settingsHidden (ui clicked) = negb (settingsHidden page).
Proof.
  intros Hget. cbv zeta. unfold loadApiKey, opened. rewrite Hget. simpl.
  unfold handleSummarize, setStatus, toggleSettings. unfoldM. simpl.
  destruct (settingsHidden page); repeat split.
Qed.

End FirstRunFacts.

(* ================================================================== *)
(** ** The further theorems on concrete runs *)

Section MoreRuns.
Import JsString Js Extractor Noise Quirks Popup Settings Render Scenario Cases.

Lemma clean_document_is_read_whole_witness :
  forallb (fun sel => negb (hasMatchIn true sel plainBody)) noiseSelectors = true
  /\ getVisibleTextIn true plainBody = cleanWhitespace (textContent plainBody)
  /\ getVisibleTextIn true plainBody = "Title Some text.".
Proof.
  split; [reflexivity|].
  split; [apply (clean_document_is_read_whole true plainBody); reflexivity
         | reflexivity].
Defined.

(** In a quirks-mode page an advertisement of class AD is noise; outside
    quirks mode it is not. *)
Example class_case_depends_on_mode :
  getVisibleTextIn true shoutingBody = "y"
  /\ getVisibleTextIn false shoutingBody = "xy"
  /\ hasMatchIn true (SelClass "ad") shoutingBody = true
  /\ hasMatchIn false (SelClass "ad") shoutingBody = false.
Proof. repeat split. Qed.

Lemma api_error_is_reported_witness :
  let env := world (server (answers keyInvalid) (Return catalogue) "K") in
  ok keyInvalid = false
  /\ tryGenerateContent env "gemini-pro" "page text" (loaded "K")
     = (Throw (mkExn Error "API key not valid. Please pass a valid API key."),
        logRequest (generateRequest "gemini-pro" "K" "page text") (loaded "K")).
Proof.
  cbv zeta. split; [reflexivity|].
  pose proof (api_error_is_reported
                (world (server (answers keyInvalid) (Return catalogue) "K"))
                "gemini-pro" "page text" (loaded "K") keyInvalid eq_refl eq_refl)
    as (_ & H & _).
  apply (H _ _ _ eq_refl eq_refl eq_refl). discriminate.
Defined.

Lemma first_candidate_text_is_returned_witness :
  let env := world (server (answers (summaryOf "A summary.")) (Return catalogue) "K") in
  tryGenerateContent env "gemini-pro" "page text" (loaded "K")
  = (Return (Some (JStr "A summary.")),
     logRequest (generateRequest "gemini-pro" "K" "page text") (loaded "K")).
Proof.
  cbv zeta.
  apply (first_candidate_text_is_returned
           (world (server (answers (summaryOf "A summary.")) (Return catalogue) "K"))
           "gemini-pro" "page text" (loaded "K") _ _ _ _ _ _ _
           eq_refl eq_refl eq_refl eq_refl eq_refl).
Defined.

Lemma first_success_is_returned_witness :
  let env := world (server secondWorks (Return catalogue) "K") in
  modelsToTry (validModelName (loaded "K"))
  = (["gemini-1.5-flash"] ++ "gemini-1.5-flash-latest" :: ["gemini-pro"])%list
  /\ fst (callGeminiAPI env "page text" (loaded "K")) = Return (Some (JStr "A summary."))
  /\ requests (snd (callGeminiAPI env "page text" (loaded "K")))
     = [generateRequest "gemini-1.5-flash" "K" "page text";
        generateRequest "gemini-1.5-flash-latest" "K" "page text"].
Proof.
  cbv zeta. split; [reflexivity|].
  destruct (first_success_is_returned
              (world (server secondWorks (Return catalogue) "K"))
              ["gemini-1.5-flash"] ["gemini-pro"] "gemini-1.5-flash-latest"
              "page text" (loaded "K") _ _ _ _ eq_refl eq_refl eq_refl) as [Hcall Hreq].
  rewrite Hcall. split; [reflexivity | exact Hreq].
Defined.

Lemma discovered_success_is_cached_witness :
  let env := world (server onlyNewWorks (Return catalogue) "K") in
  fst (callGeminiAPI env "page text" (loaded "K")) = Return (Some (JStr "A summary."))
  /\ validModelName (snd (callGeminiAPI env "page text" (loaded "K")))
     = Some "gemini-2.0-flash".
Proof.
  cbv zeta.
  destruct (discovered_success_is_cached
              (world (server onlyNewWorks (Return catalogue) "K"))
              "page text" (loaded "K") _ _ _ _ "gemini-2.0-flash" ["gemini-pro"] _
              eq_refl eq_refl eq_refl) as (Hcall & Hcache & _).
  rewrite Hcall. split; [reflexivity | exact Hcache].
Defined.

Lemma part_without_text_is_undefined_witness :
  let env := world (server (answers silentPart) (Return catalogue) "K") in
  fst (tryGenerateContent env "gemini-pro" "page text" (loaded "K")) = Return None.
Proof.
  cbv zeta.
  apply (part_without_text_is_undefined
           (world (server (answers silentPart) (Return catalogue) "K"))
           "gemini-pro" "page text" (loaded "K") _ _ _ [("inlineData", JNull)] _ _
           eq_refl eq_refl eq_refl eq_refl eq_refl).
Defined.

Lemma checkModels_malformed_witness :
  let env := world (server allMissing (Return oddListing) "K") in
  fst (checkModels env (loaded "K")) = Return None.
Proof.
  cbv zeta.
  pose proof (checkModels_malformed
                (world (server allMissing (Return oddListing) "K"))
                (loaded "K") _ eq_refl) as (_ & H & _).
  apply (H [("models", JStr "none")] "none" eq_refl eq_refl). discriminate.
Defined.

Lemma nothing_to_read_sends_nothing_witness :
  let env := worldOn (Return (Some emptyPage)) false false None
                     (server secondWorks (Return catalogue) "K") in
  getVisibleText (body emptyPage) = ""
  /\ requests (snd (handleSummarize env (loaded "K"))) = []
  /\ statusText (ui (snd (handleSummarize env (loaded "K"))))
     = "Error: Could not extract content from page.".
Proof.
  cbv zeta. split; [reflexivity|].
  pose proof (nothing_to_read_sends_nothing
                (worldOn (Return (Some emptyPage)) false false None
                         (server secondWorks (Return catalogue) "K"))
                (loaded "K") ltac:(discriminate)) as (_ & _ & _ & _ & H).
  destruct (H 7%Z emptyPage eq_refl eq_refl eq_refl) as (Hr & _ & Hs).
  split; [exact Hr | exact Hs].
Defined.

Lemma clipboard_failure_blocks_window_witness :
  let env := worldOn (Return (Some article)) true true (Some denied)
                     (server secondWorks (Return catalogue) "K") in
  copyClipboardChecked env = true
  /\ exists msg added,
       events (snd (handleSummarize env (loaded "K")))
       = (events (loaded "K") ++ added)%list
       /\ (forall t u c s, ~ In (OpenWindow t u c s) added)
       /\ statusText (ui (snd (handleSummarize env (loaded "K")))) = "Error: " ++ msg
       /\ statusColor (ui (snd (handleSummarize env (loaded "K")))) = "#dc2626".
Proof.
  cbv zeta. split; [reflexivity|].
  apply (clipboard_failure_blocks_window
           (worldOn (Return (Some article)) true true (Some denied)
                    (server secondWorks (Return catalogue) "K"))
           (loaded "K") denied); [discriminate | reflexivity | reflexivity].
Defined.

(** The same run, with what it leaves behind: [saveToFile] has been called
    and the text offered to the clipboard, and the status shows the
    refusal. *)
Example refused_clipboard_run :
  let env := worldOn (Return (Some article)) true true (Some denied)
                     (server secondWorks (Return catalogue) "K") in
  let run := handleSummarize env (loaded "K") in
  events (snd run)
  = [ExecuteScript 7; SendMessage 7;
     SaveStarted "https://example.org/post" "Gravity is optional." "A summary.";
     ClipboardWrite (Some (JStr "A summary."))]
  /\ statusText (ui (snd run)) = "Error: Write permission denied.".
Proof. vm_compute. repeat split. Qed.

Lemma blank_key_is_not_saved_witness :
  blank "   " = true
  /\ saveApiKey chrome (typed "   ") = (Return tt, typed "   ").
Proof.
  split; [reflexivity|].
  apply (blank_key_is_not_saved chrome (typed "   ")). reflexivity.
Defined.

Lemma saved_key_is_loaded_back_witness :
  let saved := snd (saveApiKey chrome (typed "  K-123 ")) in
  blank "  K-123 " = false
  /\ stored saved = Some "K-123"
  /\ API_KEY (popup saved) = "K-123"
  /\ API_KEY (popup (snd (loadApiKey chrome (opened readyUI "" "Save Key" (stored saved)))))
     = "K-123".
Proof.
  cbv zeta. split; [reflexivity|].
  pose proof (saved_key_is_loaded_back chrome (typed "  K-123 ")
                eq_refl eq_refl eq_refl) as (_ & H1 & H2 & _ & _ & _ & _ & H3).
  split; [exact H1 | split; [exact H2|]].
  apply (H3 readyUI "" "Save Key").
Defined.

Lemma first_run_asks_for_key_witness :
  let env := world (server secondWorks (Return catalogue) "") in
  let start := snd (loadApiKey chrome (opened readyUI "" "Save Key" None)) in
  storageGet chrome = None
  /\ requests (snd (handleSummarize env (popup start))) = []
  /\ statusText (ui (snd (handleSummarize env (popup start))))
     = "Missing API Key. Click 'Settings' to add it.".
Proof.
  cbv zeta. split; [reflexivity|].
  pose proof (first_run_asks_for_key chrome
                (world (server secondWorks (Return catalogue) ""))
                readyUI "" "Save Key" eq_refl)
    as (_ & _ & _ & _ & Hr & _ & Hs & _).
  split; [exact Hr | exact Hs].
Defined.

Lemma save_feedback_is_undone_witness :
  let later := timerFires (snd (saveApiKey chrome (typed "  K-123 "))) in
  timers (typed "  K-123 ") = []
  /\ saveKeyText later = "Save Key"
  /\ statusText (ui (popup later)) = "Ready to summarize"
  /\ API_KEY (popup later) = "K-123".
Proof.
  cbv zeta. split; [reflexivity|].
  pose proof (save_feedback_is_undone chrome (typed "  K-123 ")
                eq_refl eq_refl eq_refl) as (H1 & _ & _ & _ & H5 & H6 & _).
  split; [exact H1 | split; [exact H5 | exact H6]].
Defined.

Lemma double_save_keeps_saved_label_witness :
  let twice := snd (saveApiKey chrome (snd (saveApiKey chrome (typed "  K-123 ")))) in
  timers twice = ["Save Key"; "Saved!"]
  /\ saveKeyText (timerFires (timerFires twice)) = "Saved!".
Proof.
  cbv zeta. split; [reflexivity|].
  pose proof (double_save_keeps_saved_label chrome (typed "  K-123 ")
                eq_refl eq_refl eq_refl) as (H1 & _).
  exact H1.
Defined.

End MoreRuns.

(* ================================================================== *)
(** ** The cached model over a session *)

Section SessionFacts.
Import JsString Js Popup Session.
Variable env : Env.



End SessionFacts.

Section SessionRuns.
Import JsString Js Popup Session Scenario Cases.



End SessionRuns.
